(** * Billing / OAuth backend: a shallow embedding of [main.py]

    The service is a set of FastAPI handlers.  Each handler validates a
    request, calls at most one external collaborator (the payment SDK or
    the identity provider's token endpoint), optionally writes to the
    document store and returns a JSON-shaped value.  Handlers are embedded
    as computations in a state-and-exception monad over a [World] made of
    the document store and a log of the calls made to external services. *)

From stdpp Require Import gmap strings list fin_maps pretty.

Set Warnings "-register-all".

Open Scope Z_scope.
Open Scope string_scope.

(** ** Python values *)

(** The values that travel through the handlers: what BSON documents and
    JSON bodies hold.  A [dict] with string keys is a [gmap]. *)
Inductive pyval : Type :=
  | PNone
  | PBool (b : bool)
  | PInt (z : Z)
  | PStr (s : string)
  | PObjectId (hex : string)
  | PList (l : list pyval)
  | PDict (d : gmap string pyval).

(** A stored document, a JSON object. *)
Abbreviation document := (gmap string pyval).

(** [d.get(k)] and [d.get(k, default)]. *)
Definition dict_get (d : document) (k : string) : pyval := default PNone (d !! k).
Definition dict_get_default (d : document) (k : string) (dflt : pyval) : pyval :=
  default dflt (d !! k).

(** Truthiness of a string: [not s] holds exactly for the empty string. *)
Definition str_truthy (s : string) : bool :=
  match s with EmptyString => false | String _ _ => true end.

Definition is_none {A} (o : option A) : bool :=
  match o with None => true | Some _ => false end.

(** ** Exceptions *)

(** An exception raised by a library: its class and the text [str(e)]. *)
Record pyexc := PyExc { exc_class : string; exc_message : string }.

Inductive exn : Type :=
  | HTTPException (status_code : Z) (detail : string)
  | ValidationError (fields : list string)  (* pydantic: the rejected fields *)
  | PyError (e : pyexc).

Inductive result (A : Type) : Type :=
  | Ok (a : A)
  | Raise (e : exn).
Arguments Ok {A} a.
Arguments Raise {A} e.

Definition lift_exc {A} (r : pyexc + A) : result A :=
  match r with inl e => Raise (PyError e) | inr a => Ok a end.

(** The status line FastAPI answers with: an [HTTPException] carries its
    own status, any other uncaught exception is a 500. *)
Definition http_status {A} (r : result A) : Z :=
  match r with
  | Ok _ => 200
  | Raise (HTTPException c _) => c
  | Raise _ => 500
  end.

(** [v[k]] for a string key: a [KeyError] when the dict lacks the key, a
    [TypeError] when [v] is no dict. *)
Definition subscript (v : pyval) (k : string) : pyexc + pyval :=
  match v with
  | PDict d =>
      match d !! k with
      | Some x => inr x
      | None => inl (PyExc "KeyError" k)
      end
  | _ => inl (PyExc "TypeError" "string key on a value that is not a dict")
  end.

(** [event["data"]["object"]] *)
Definition event_data_object (event : gmap string pyval) : pyexc + pyval :=
  match subscript (PDict event) "data" with
  | inl e => inl e
  | inr data => subscript data "object"
  end.

Arguments subscript : simpl never.
Arguments event_data_object : simpl never.

(** ** External collaborators *)

(** *** The payment SDK (the guarded [import stripe]) *)

Record CheckoutSessionArgs := {
  cs_mode : string;
  cs_payment_method_types : list string;
  cs_line_items : list (string * Z);      (* price, quantity *)
  cs_customer_email : string;
  cs_success_url : string;
  cs_cancel_url : string
}.

Record Session := { session_id : string; session_url : string }.

(** A verified event: the mapping [construct_event] builds from the
    signed payload (a [stripe.Event] is a dict); it holds what the
    sender put there. *)
Abbreviation Event := (gmap string pyval).

Record StripeModule := {
  checkout_Session_create : CheckoutSessionArgs → pyexc + Session;
  Webhook_construct_event :
    list Byte.byte → option string → string → pyexc + Event
}.

(** *** The identity provider's token endpoint ([requests.post]) *)

Record Response := { status_code : Z; json : pyexc + pyval }.

(** *** Process environment *)

Record Env := {
  environ : gmap string string;
  stripe : option StripeModule;          (* [None] when the import failed *)
  requests_post : string → gmap string string → pyexc + Response
}.

(** [os.getenv(name, default)] *)
Definition getenv (env : Env) (name dflt : string) : string :=
  default dflt (environ env !! name).

(** Every call that leaves the process is logged. *)
Inductive call : Type :=
  | CallCheckoutSessionCreate (args : CheckoutSessionArgs)
  | CallConstructEvent (payload : list Byte.byte) (sig_header : option string)
      (secret : string)
  | CallRequestsPost (url : string) (data : gmap string string).

(** *** The document store adapter ([from database import ...])

    The module [database] is not among the sources; the handlers are
    written against its interface, taken here as a parameter: the handle
    [db] (possibly [None]), [create_document], [get_documents] and the
    driver's [count_documents] on a collection. *)
Class DocumentStore (St : Type) := {
  db_is_none : St → bool;
  count_documents : string → St → pyexc + Z;
  create_document : string → pyval → St → (pyexc + string) * St;
  get_documents : string → St → pyexc + list document
}.

(** *** Python and pydantic runtime

    [str] of a container and pydantic's coercions of values that are not
    already of the declared type differ between library versions; they
    are parameters.  What does not differ is fixed below. *)
Class PyRuntime := {
  repr_container : pyval → string;
  coerce_str : pyval → option string;
  coerce_int : pyval → option Z
}.

(** ** The handler monad *)

Record World (St : Type) := MkWorld { store : St; calls : list call }.
Arguments MkWorld {St} store calls.
Arguments store {St} w.
Arguments calls {St} w.

Definition M (St A : Type) : Type := World St → result A * World St.

Definition ret {St A} (a : A) : M St A := λ w, (Ok a, w).
Definition raise {St A} (e : exn) : M St A := λ w, (Raise e, w).
Definition bind {St A B} (m : M St A) (k : A → M St B) : M St B :=
  λ w, match m w with
       | (Ok a, w') => k a w'
       | (Raise e, w') => (Raise e, w')
       end.

#[global] Instance M_ret St : MRet (M St) := @ret St.
#[global] Instance M_bind St : MBind (M St) := λ A B k m, bind m k.

(** [try: m  except Exception as e: h e].  Effects of [m] before the
    exception stay. *)
Definition try_except {St A} (m : M St A) (h : exn → M St A) : M St A :=
  λ w, match m w with
       | (Ok a, w') => (Ok a, w')
       | (Raise e, w') => h e w'
       end.

(** [for x in l: body x] *)
Fixpoint for_each {St A} (l : list A) (body : A → M St unit) : M St unit :=
  match l with
  | [] => ret tt
  | x :: l' => bind (body x) (λ _, for_each l' body)
  end.

(** [out = []; for x in l: out.append(f x); return out] *)
Fixpoint for_append {St A B} (l : list A) (f : A → M St B) : M St (list B) :=
  match l with
  | [] => ret []
  | x :: l' => bind (f x) (λ y, bind (for_append l' f) (λ ys, ret (y :: ys)))
  end.

Definition log_call {St} (c : call) : M St unit :=
  λ w, (Ok tt, MkWorld (store w) (calls w ++ [c])).

Definition lift {St A} (r : pyexc + A) : M St A := λ w, (lift_exc r, w).

(** ** Request and response schemas *)

Record PlanOut := {
  id : string;
  name : string;
  description : option string;
  price_cents : Z;
  interval : string;
  features : list string
}.

Record CreateCheckoutSessionIn := {
  price_id : string;
  customer_email : string;
  success_url : string;
  cancel_url : string
}.

Record GoogleOAuthCallbackIn := { code : string }.

(** The part of [fastapi.Request] the webhook reads; header names are
    stored in lower case. *)
Record Request := { body : list Byte.byte; headers : gmap string string }.

Section Backend.
Context {St : Type} `{!DocumentStore St} `{!PyRuntime}.
Variable env : Env.

Local Abbreviation M := (M St).

(** [str(v)] *)
Definition py_str (v : pyval) : string :=
  match v with
  | PNone => "None"
  | PBool true => "True"
  | PBool false => "False"
  | PInt z => pretty z
  | PStr s => s
  | PObjectId hex => hex
  | PList _ | PDict _ => repr_container v
  end.

(** *** Field validation of [PlanOut]

    A [str] field takes a string and rejects [None]; an [int] field
    takes an integer and rejects [None]; [Optional[str]] also takes
    [None]; [List[str]] takes a list whose items are valid [str]s. *)
Definition validate_str (v : pyval) : option string :=
  match v with
  | PStr s => Some s
  | PNone => None
  | _ => coerce_str v
  end.

Definition validate_optional_str (v : pyval) : option (option string) :=
  match v with
  | PNone => Some None
  | _ => Some <$> validate_str v
  end.

Definition validate_int (v : pyval) : option Z :=
  match v with
  | PInt z => Some z
  | PNone => None
  | _ => coerce_int v
  end.

Definition validate_list_str (v : pyval) : option (list string) :=
  match v with
  | PList l => mapM validate_str l
  | _ => None
  end.

Definition invalid {A} (field : string) (o : option A) : list string :=
  match o with Some _ => [] | None => [field] end.

(** [PlanOut(id=..., name=..., ...)]: every field is validated, the
    error names all the rejected ones. *)
Definition PlanOut_init
    (a_id a_name a_description a_price_cents a_interval a_features : pyval)
    : result PlanOut :=
  let v_id := validate_str a_id in
  let v_name := validate_str a_name in
  let v_description := validate_optional_str a_description in
  let v_price_cents := validate_int a_price_cents in
  let v_interval := validate_str a_interval in
  let v_features := validate_list_str a_features in
  match v_id, v_name, v_description, v_price_cents, v_interval, v_features with
  | Some i, Some n, Some d, Some p, Some iv, Some fs =>
      Ok {| id := i; name := n; description := d; price_cents := p;
            interval := iv; features := fs |}
  | _, _, _, _, _, _ =>
      Raise (ValidationError
               (invalid "id" v_id ++ invalid "name" v_name ++
                invalid "description" v_description ++
                invalid "price_cents" v_price_cents ++
                invalid "interval" v_interval ++
                invalid "features" v_features))
  end.

(** *** Config *)
Definition STRIPE_SECRET_KEY : string := getenv env "STRIPE_SECRET_KEY" "".
Definition STRIPE_WEBHOOK_SECRET : string := getenv env "STRIPE_WEBHOOK_SECRET" "".
Definition GOOGLE_CLIENT_ID : string := getenv env "GOOGLE_CLIENT_ID" "".
Definition GOOGLE_CLIENT_SECRET : string := getenv env "GOOGLE_CLIENT_SECRET" "".
Definition GOOGLE_REDIRECT_URI : string := getenv env "GOOGLE_REDIRECT_URI" "".

(** *** Calls to the collaborators *)

(** [collection(name)]: the handle [db[name]], here its name. *)
Definition collection (name : string) : M string :=
  λ w, if db_is_none (store w)
       then (Raise (HTTPException 500 "Database not configured"), w)
       else (Ok name, w).

Definition col_count_documents (col : string) : M Z :=
  λ w, (lift_exc (count_documents col (store w)), w).

Definition do_create_document (name : string) (data : pyval) : M string :=
  λ w, let '(r, s) := create_document name data (store w) in
       (lift_exc r, MkWorld s (calls w)).

Definition do_get_documents (name : string) : M (list document) :=
  λ w, (lift_exc (get_documents name (store w)), w).

Definition no_stripe {A} (attr : string) : pyexc + A :=
  inl (PyExc "AttributeError"
         ("'NoneType' object has no attribute '" ++ attr ++ "'")).

(** [stripe.checkout.Session.create(...)], its failure reified. *)
Definition stripe_checkout_Session_create (args : CheckoutSessionArgs)
    : M (pyexc + Session) :=
  match stripe env with
  | None => ret (no_stripe "checkout")
  | Some sdk =>
      _ ← log_call (CallCheckoutSessionCreate args);
      ret (checkout_Session_create sdk args)
  end.

(** [stripe.Webhook.construct_event(...)], its failure reified. *)
Definition stripe_Webhook_construct_event
    (payload : list Byte.byte) (sig_header : option string) (secret : string)
    : M (pyexc + Event) :=
  match stripe env with
  | None => ret (no_stripe "Webhook")
  | Some sdk =>
      _ ← log_call (CallConstructEvent payload sig_header secret);
      ret (Webhook_construct_event sdk payload sig_header secret)
  end.

Definition do_requests_post (url : string) (data : gmap string string)
    : M Response :=
  _ ← log_call (CallRequestsPost url data);
  lift (requests_post env url data).

(** *** Seed sample plans if none *)

Definition SAMPLE_PLANS : list document :=
  [ {[ "name" := PStr "Starter";
       "description" := PStr "For small businesses getting started";
       "price_cents" := PInt 1900;
       "interval" := PStr "month";
       "stripe_price_id" :=
         PStr (getenv env "STRIPE_PRICE_STARTER" "price_XXXX_starter");
       "features" :=
         PList [ PStr "Connect 1 Google Business Profile";
                 PStr "Basic analytics";
                 PStr "Email support" ] ]};
    {[ "name" := PStr "Growth";
       "description" := PStr "For growing teams managing multiple locations";
       "price_cents" := PInt 4900;
       "interval" := PStr "month";
       "stripe_price_id" :=
         PStr (getenv env "STRIPE_PRICE_GROWTH" "price_XXXX_growth");
       "features" :=
         PList [ PStr "Connect up to 5 locations";
                 PStr "Posts & hours management";
                 PStr "Priority support" ] ]} ].

Definition seed_plans : M unit :=
  try_except
    (col ← collection "plan";
     n ← col_count_documents col;
     if decide (n = 0)
     then for_each SAMPLE_PLANS
            (λ plan, _ ← do_create_document "plan" (PDict plan); ret tt)
     else ret tt)
    (λ _, ret tt).

(** *** Plans & billing endpoints *)

(** The loop body: [PlanOut(id=str(d.get("_id")), name=d.get("name"), ...)]. *)
Definition plan_out_of_doc (d : document) : result PlanOut :=
  PlanOut_init
    (PStr (py_str (dict_get d "_id")))
    (dict_get d "name")
    (dict_get d "description")
    (dict_get_default d "price_cents" (PInt 0))
    (dict_get_default d "interval" (PStr "month"))
    (dict_get_default d "features" (PList [])).

Definition get_plans : M (list PlanOut) :=
  docs ← do_get_documents "plan";
  for_append docs (λ d w, (plan_out_of_doc d, w)).

Definition create_checkout_session (payload : CreateCheckoutSessionIn)
    : M pyval :=
  if is_none (stripe env) || negb (str_truthy STRIPE_SECRET_KEY)
  then raise (HTTPException 400 "Stripe not configured")
  else
    r ← stripe_checkout_Session_create
          {| cs_mode := "subscription";
             cs_payment_method_types := ["card"];
             cs_line_items := [(price_id payload, 1)];
             cs_customer_email := customer_email payload;
             cs_success_url :=
               success_url payload ++ "?session_id={CHECKOUT_SESSION_ID}";
             cs_cancel_url := cancel_url payload |};
    match r with
    | inr session =>
        ret (PDict {[ "id" := PStr (session_id session);
                      "url" := PStr (session_url session) ]})
    | inl e => raise (HTTPException 400 (exc_message e))
    end.

Definition accepted_event_types : list string :=
  [ "checkout.session.completed";
    "customer.subscription.created";
    "customer.subscription.updated";
    "customer.subscription.deleted" ].

(** [v in [...]] for the four names: equal to one of them, so a string. *)
Definition type_accepted (v : pyval) : bool :=
  match v with
  | PStr s => bool_decide (s ∈ accepted_event_types)
  | _ => false
  end.

Arguments type_accepted : simpl never.

Definition stripe_webhook (request : Request) : M pyval :=
  if is_none (stripe env) || negb (str_truthy STRIPE_WEBHOOK_SECRET)
  then ret (PDict {[ "received" := PBool true; "skipped" := PBool true ]})
  else
    let payload := body request in
    let sig_header := headers request !! "stripe-signature" in
    r ← stripe_Webhook_construct_event payload sig_header STRIPE_WEBHOOK_SECRET;
    match r with
    | inl e => raise (HTTPException 400 (exc_message e))
    | inr event =>
        type ← lift (subscript (PDict event) "type");
        _ ← (if type_accepted type
             then
               data ← lift (event_data_object event);
               try_except
                 (type' ← lift (subscript (PDict event) "type");
                  _ ← do_create_document "stripeevent"
                        (PDict {[ "type" := type'; "data" := data ]});
                  ret tt)
                 (λ _, ret tt)
             else ret tt);
        ret (PDict {[ "received" := PBool true ]})
    end.

(** *** Google OAuth scaffolding *)

(** [tokens.items()]: an [AttributeError] unless [tokens] is a dict. *)
Definition dict_items (v : pyval) : M document :=
  match v with
  | PDict d => ret d
  | _ => raise (PyError (PyExc "AttributeError"
                           "object has no attribute 'items'"))
  end.

(** [{k: (v if k == "scope" else "***") for k, v in tokens.items()}] *)
Definition mask_tokens (tokens : document) : document :=
  map_imap (λ k v, Some (if decide (k = "scope") then v else PStr "***"))
           tokens.

Definition token_url : string := "https://oauth2.googleapis.com/token".

(** The form [data] posted to the token endpoint. *)
Definition token_request_data (body : GoogleOAuthCallbackIn)
    : gmap string string :=
  {[ "code" := code body;
     "client_id" := GOOGLE_CLIENT_ID;
     "client_secret" := GOOGLE_CLIENT_SECRET;
     "redirect_uri" := GOOGLE_REDIRECT_URI;
     "grant_type" := "authorization_code" ]}.

Definition google_oauth_callback (body : GoogleOAuthCallbackIn) : M pyval :=
  if negb (str_truthy GOOGLE_CLIENT_ID)
     || negb (str_truthy GOOGLE_CLIENT_SECRET)
     || negb (str_truthy GOOGLE_REDIRECT_URI)
  then raise (HTTPException 400 "Google OAuth not configured")
  else
    let data := token_request_data body in
    r ← do_requests_post token_url data;
    if negb (status_code r =? 200)%Z
    then raise (HTTPException 400 "Failed to exchange code")
    else
      tokens ← lift (json r);
      _ ← try_except
            (_ ← do_create_document "googleconnection" tokens; ret tt)
            (λ _, ret tt);
      items ← dict_items tokens;
      ret (PDict {[ "connected" := PBool true;
                    "tokens" := PDict (mask_tokens items) ]}).

Definition list_google_locations : M pyval :=
  conns ← do_get_documents "googleconnection";
  match conns with
  | [] => ret (PDict {[ "connected" := PBool false; "locations" := PList [] ]})
  | _ :: _ =>
      ret (PDict
             {[ "connected" := PBool true;
                "locations" :=
                  PList [ PDict {[ "name" := PStr "Demo Location A";
                                   "storeCode" := PStr "A001" ]};
                          PDict {[ "name" := PStr "Demo Location B";
                                   "storeCode" := PStr "B002" ]} ] ]})
  end.

End Backend.

(** ** The document store *)

(** Modelled from the spec: the module [database] ([db],
    [create_document], [get_documents]) is not among the sources.  Per
    section 4.1 the adapter offers [insert(collection, document) ->
    generatedId], [findAll] and [countAll] over named collections of
    documents, and every operation fails when no connection was
    established at process start ([db] is [None]).  Sections 4.3 and 7
    speak of storage failures of best-effort writes on a running service:
    a live connection that refuses writes is [writable = false]. *)
Record Database := {
  collections : gmap string (list document);
  next_oid : N;
  writable : bool
}.

(** Modelled from the spec: [findAll(collection)], the documents of a
    collection in insertion order; a collection never written to is
    empty. *)
Definition find_all (name : string) (db : Database) : list document :=
  default [] (collections db !! name).

(** Modelled from the spec: [insert(collection, document) ->
    generatedId]; the document is kept with its generated identifier
    under [_id], after the ones already there. *)
Definition insert_one (name : string) (d : document) (db : Database)
    : string * Database :=
  let oid := pretty (next_oid db) in
  (oid,
   {| collections :=
        <[name := (find_all name db ++ [<["_id" := PObjectId oid]> d])%list]>
          (collections db);
      next_oid := N.succ (next_oid db);
      writable := writable db |}).

Definition store_unavailable : pyexc :=
  PyExc "Exception" "Database not available".

(** Modelled from the spec: the adapter over [db : option Database].
    Every operation fails without a connection; a write also fails on a
    connection that refuses writes, or when handed something that is not
    a document; a failed write leaves the store as it was. *)
#[global] Instance spec_store : DocumentStore (option Database) := {|
  db_is_none := is_none;
  count_documents name st :=
    match st with
    | None => inl store_unavailable
    | Some db => inr (Z.of_nat (length (find_all name db)))
    end;
  create_document name data st :=
    match st, data with
    | None, _ => (inl store_unavailable, st)
    | Some db, PDict d =>
        if writable db
        then let '(oid, db') := insert_one name d db in (inr oid, Some db')
        else (inl (PyExc "PyMongoError" "write refused"), st)
    | Some _, _ => (inl (PyExc "TypeError" "document must be a dict"), st)
    end;
  get_documents name st :=
    match st with
    | None => inl store_unavailable
    | Some db => inr (find_all name db)
    end
|}.

(** A runtime that coerces nothing: only values already of the declared
    type validate.  It is used to run the handlers on examples; none of
    them prints a container. *)
#[global] Instance strict_runtime : PyRuntime := {|
  repr_container _ := "...";
  coerce_str _ := None;
  coerce_int _ := None
|}.

(** ** Test doubles for the collaborators *)

(** A payment SDK double: a delivery verifies when its signature header is
    ["v1=good"]; the verified event has the payload text as its type and
    an object under [data]. *)
Definition sdk_double : StripeModule := {|
  checkout_Session_create args :=
    inr {| session_id := "cs_test_1";
           session_url := "https://checkout.example/cs_test_1" |};
  Webhook_construct_event payload sig_header secret :=
    if bool_decide (sig_header = Some "v1=good")
    then inr {[ "type" := PStr (String.string_of_list_byte payload);
                "data" :=
                  PDict {[ "object" := PDict {[ "id" := PStr "obj_1" ]} ]} ]}
    else inl (PyExc "SignatureVerificationError" "No signatures found")
|}.

Definition token_response : document :=
  {[ "access_token" := PStr "ya29.secret-access";
     "refresh_token" := PStr "1//secret-refresh";
     "scope" := PStr "openid email";
     "token_type" := PStr "Bearer";
     "expires_in" := PInt 3599 ]}.

(** A token endpoint double: the code ["abc"] is rejected with a 401, any
    other code is exchanged for [token_response]. *)
Definition token_endpoint_double (url : string) (data : gmap string string)
    : pyexc + Response :=
  if bool_decide (data !! "code" = Some "abc")
  then inr {| status_code := 401;
              json := inr (PDict {[ "error" := PStr "invalid_grant" ]}) |}
  else inr {| status_code := 200; json := inr (PDict token_response) |}.

(** Everything configured. *)
Definition env_configured : Env := {|
  environ :=
    {[ "STRIPE_SECRET_KEY" := "sk_test_1";
       "STRIPE_WEBHOOK_SECRET" := "whsec_1";
       "GOOGLE_CLIENT_ID" := "client-1";
       "GOOGLE_CLIENT_SECRET" := "client-secret-1";
       "GOOGLE_REDIRECT_URI" := "https://app.example/oauth" ]};
  stripe := Some sdk_double;
  requests_post := token_endpoint_double
|}.

(** The SDK is installed but no credential is set. *)
Definition env_unconfigured : Env := {|
  environ := ∅;
  stripe := Some sdk_double;
  requests_post := token_endpoint_double
|}.

Definition empty_db : Database :=
  {| collections := ∅; next_oid := 0; writable := true |}.

Definition read_only_db : Database :=
  {| collections := ∅; next_oid := 0; writable := false |}.

(** A store that cannot be written to and holds nothing. *)
Definition world_read_only : World (option Database) :=
  MkWorld (Some read_only_db) [].

Definition world_empty : World (option Database) :=
  MkWorld (Some empty_db) [].

(** A plan document with neither [description] nor [features], and one
    without [name]. *)
Definition bare_plan : document :=
  {[ "_id" := PObjectId "65f0c0de"; "name" := PStr "Solo";
     "price_cents" := PInt 900; "interval" := PStr "year" ]}.

Definition nameless_plan : document :=
  {[ "_id" := PObjectId "65f0c0df"; "price_cents" := PInt 900 ]}.

Definition world_of_plans (docs : list document) : World (option Database) :=
  MkWorld (Some {| collections := {[ "plan" := docs ]};
                   next_oid := 2; writable := true |}) [].

(** A correctly signed delivery of an event of the given type. *)
Definition delivery (type : string) : Request :=
  {| body := String.list_byte_of_string type;
     headers := {[ "stripe-signature" := "v1=good" ]} |}.

Definition checkout_payload : CreateCheckoutSessionIn :=
  {| price_id := "price_1"; customer_email := "a@example.com";
     success_url := "https://app.example/ok";
     cancel_url := "https://app.example/cancel" |}.

(** The store after inserting [docs] one after the other. *)
Definition insert_many (name : string) (docs : list document) (db : Database)
    : Database :=
  foldl (λ db d, (insert_one name d db).2) db docs.

(** [p] is the document [d] as the store keeps it: with an identifier. *)
Definition stored_as (d p : document) : Prop :=
  ∃ oid, p = <["_id" := PObjectId oid]> d.

(** ** Predicates used in the statements *)

Definition is_str (v : pyval) : bool :=
  match v with PStr _ => true | _ => false end.
Definition is_int (v : pyval) : bool :=
  match v with PInt _ => true | _ => false end.
Definition is_str_or_none (v : pyval) : bool :=
  match v with PStr _ | PNone => true | _ => false end.
Definition is_str_list (v : pyval) : bool :=
  match v with PList l => forallb is_str l | _ => false end.

(** The fields a plan document does hold have the types of the [Plan]
    schema, and [name] is there; every other field may be absent. *)
Definition plan_fields_typed (d : document) : bool :=
  from_option is_str false (d !! "name")
  && from_option is_str_or_none true (d !! "description")
  && from_option is_int true (d !! "price_cents")
  && from_option is_str true (d !! "interval")
  && from_option is_str_list true (d !! "features").

(** ** The remaining endpoints *)

From Stdlib Require Import Ascii.

(** *** [urllib.parse.urlencode]

    A string stands for the bytes a [str] came from.  For a configured
    value these are the bytes of the environment, which [os.getenv]
    decodes as UTF-8 with surrogate escapes: bytes that are not UTF-8
    become lone surrogates.  [quote_plus] first encodes the [str] as
    UTF-8, strictly, which raises on a surrogate, that is exactly when
    the bytes are not valid UTF-8, and gives the bytes back otherwise. *)

(** Strict UTF-8: [pending] continuation bytes are still due, the next
    of them within [lo..hi]. *)
Fixpoint utf8_valid_from (pending : nat) (lo hi : N) (s : string) : bool :=
  match s with
  | "" => match pending with O => true | S _ => false end
  | String c s' =>
      let n := N_of_ascii c in
      match pending with
      | O =>
          if (n <=? 127)%N then utf8_valid_from 0 128 191 s'
          else if ((194 <=? n) && (n <=? 223))%N
          then utf8_valid_from 1 128 191 s'
          else if (n =? 224)%N then utf8_valid_from 2 160 191 s'
          else if (((225 <=? n) && (n <=? 236)) || (n =? 238) || (n =? 239))%N
          then utf8_valid_from 2 128 191 s'
          else if (n =? 237)%N then utf8_valid_from 2 128 159 s'
          else if (n =? 240)%N then utf8_valid_from 3 144 191 s'
          else if ((241 <=? n) && (n <=? 243))%N
          then utf8_valid_from 3 128 191 s'
          else if (n =? 244)%N then utf8_valid_from 3 128 143 s'
          else false
      | S pending' =>
          if ((lo <=? n) && (n <=? hi))%N
          then utf8_valid_from pending' 128 191 s'
          else false
      end
  end.

Definition utf8_valid (s : string) : bool := utf8_valid_from 0 128 191 s.

(** Quoting of the encoded bytes: the always-safe bytes (letters, digits
    and [_.-~]) are kept, a space is written [+] and every other byte
    [%XX] in upper-case hexadecimal. *)
Definition always_safe (c : ascii) : bool :=
  let n := N_of_ascii c in
  ((65 <=? n) && (n <=? 90))%N
  || ((97 <=? n) && (n <=? 122))%N
  || ((48 <=? n) && (n <=? 57))%N
  || bool_decide (c ∈ ["_"; "."; "-"; "~"]%char).

Definition hex_digit (n : N) : ascii :=
  default "0"%char (String.get (N.to_nat n) "0123456789ABCDEF").

Definition percent_encode (c : ascii) : string :=
  let n := N_of_ascii c in
  String "%" (String (hex_digit (n / 16)) (String (hex_digit (n mod 16)) "")).

Definition quote_plus_byte (c : ascii) : string :=
  if always_safe c then String c ""
  else if bool_decide (c = " "%char) then "+"
  else percent_encode c.

Fixpoint quote_plus_bytes (s : string) : string :=
  match s with
  | "" => ""
  | String c s' => quote_plus_byte c ++ quote_plus_bytes s'
  end.

(** [quote_plus(s)] *)
Definition quote_plus (s : string) : pyexc + string :=
  if utf8_valid s then inr (quote_plus_bytes s)
  else inl (PyExc "UnicodeEncodeError"
              "'utf-8' codec can't encode character: surrogates not allowed").

(** The [name=value] fields [urlencode] collects, in order; the first
    string that does not encode raises. *)
Fixpoint urlencode_fields (query : list (string * string))
    : pyexc + list string :=
  match query with
  | [] => inr []
  | (k, v) :: query' =>
      match quote_plus k with
      | inl e => inl e
      | inr k' =>
          match quote_plus v with
          | inl e => inl e
          | inr v' =>
              match urlencode_fields query' with
              | inl e => inl e
              | inr fields => inr ((k' ++ "=" ++ v') :: fields)
              end
          end
      end
  end.

(** [urlencode(params)] for a dict of strings, in insertion order. *)
Definition urlencode (query : list (string * string)) : pyexc + string :=
  match urlencode_fields query with
  | inl e => inl e
  | inr fields => inr (String.concat "&" fields)
  end.

(** What [urlencode] returns when every name and value encodes. *)
Definition urlencode_bytes (query : list (string * string)) : string :=
  String.concat "&"
    (map (λ kv, quote_plus_bytes kv.1 ++ "=" ++ quote_plus_bytes kv.2) query).

(** *** [urllib.parse.parse_qsl], the inverse the provider applies *)

Definition hex_value (c : ascii) : option N :=
  let n := N_of_ascii c in
  if ((48 <=? n) && (n <=? 57))%N then Some (n - 48)%N
  else if ((65 <=? n) && (n <=? 70))%N then Some (n - 55)%N
  else if ((97 <=? n) && (n <=? 102))%N then Some (n - 87)%N
  else None.

(** [unquote_plus]: [+] is a space, [%XX] is the byte [XX], a [%] that
    starts no such escape stays. *)
Fixpoint unquote_plus (s : string) : string :=
  match s with
  | "" => ""
  | String c s' =>
      if bool_decide (c = "+"%char) then String " " (unquote_plus s')
      else if bool_decide (c = "%"%char) then
        match s' with
        | String h (String l s'') =>
            match hex_value h, hex_value l with
            | Some hi, Some lo =>
                String (ascii_of_N (hi * 16 + lo)) (unquote_plus s'')
            | _, _ => String c (unquote_plus s')
            end
        | _ => String c (unquote_plus s')
        end
      else String c (unquote_plus s')
  end.

(** [s.split(sep)] *)
Fixpoint split_on (sep : ascii) (s : string) : list string :=
  match s with
  | "" => [""]
  | String c s' =>
      if bool_decide (c = sep) then "" :: split_on sep s'
      else match split_on sep s' with
           | [] => [String c ""]
           | x :: xs => String c x :: xs
           end
  end.

(** [s.split(sep, 1)] as the part before the first [sep] and, when there
    is one, the part after it. *)
Fixpoint cut_at (sep : ascii) (s : string) : string * option string :=
  match s with
  | "" => ("", None)
  | String c s' =>
      if bool_decide (c = sep) then ("", Some s')
      else let '(a, b) := cut_at sep s' in (String c a, b)
  end.

(** Decoding of form-urlencoded data: the fields are separated by [&],
    a field is [name=value], both parts are unquoted; the empty string
    holds no field. *)
Definition parse_query (s : string) : list (string * string) :=
  match s with
  | "" => []
  | _ =>
      map (λ field, let '(k, v) := cut_at "=" field in
                    (unquote_plus k, unquote_plus (default "" v)))
          (split_on "&" s)
  end.

(** Number of occurrences of a byte in a string. *)
Fixpoint count_byte (c : ascii) (s : string) : nat :=
  match s with
  | "" => 0
  | String c' s' => (if bool_decide (c' = c) then 1 else 0) + count_byte c s'
  end.

(** Every byte of the string satisfies [p]. *)
Fixpoint all_bytes (p : ascii → bool) (s : string) : bool :=
  match s with
  | "" => true
  | String c s' => p c && all_bytes p s'
  end.

(** The bytes [urlencode] produces. *)
Definition query_byte (c : ascii) : bool :=
  always_safe c || bool_decide (c ∈ ["%"; "+"; "="; "&"]%char).

(** [s[:n]] for a [str]: the first [n] code points.  A code point is a
    lead byte followed by its continuation bytes ([10xxxxxx]). *)
Definition is_continuation (c : ascii) : bool :=
  let n := N_of_ascii c in ((128 <=? n) && (n <? 192))%N.

Fixpoint utf8_take (n : nat) (s : string) : string :=
  match s with
  | "" => ""
  | String c s' =>
      if is_continuation c then String c (utf8_take n s')
      else match n with
           | O => ""
           | S n' => String c (utf8_take n' s')
           end
  end.

(** *** The driver's handle, as the diagnostic endpoint uses it

    [getattr(db, "name", default)] yields the attribute when there is one
    and the default when there is none; [db.list_collection_names()]. *)
Class DatabaseHandle (St : Type) := {
  db_name : St → pyexc + option string;
  list_collection_names : St → pyexc + list string
}.

Definition GOOGLE_SCOPES : list string :=
  [ "https://www.googleapis.com/auth/business.manage";
    "openid";
    "email";
    "profile" ].

Section Endpoints.
Context {St : Type} `{!DocumentStore St} `{!DatabaseHandle St}.
Variable env : Env.

(** *** Health *)

Definition root : M St pyval :=
  ret (PDict {[ "message" := PStr "Backend ready";
                "stripe" := PBool (str_truthy (STRIPE_SECRET_KEY env)) ]}).

(** ["X" if os.getenv(name) else "Y"]: set and not empty. *)
Definition env_is_set (name : string) : bool :=
  from_option str_truthy false (environ env !! name).

(** [test_database()].  The response dict is updated in place; an
    exception leaves the updates made before it. *)
Definition test_database : M St pyval := λ w,
  let db := store w in
  let response : document :=
    {[ "backend" := PStr "✅ Running";
       "database" := PStr "❌ Not Available";
       "database_url" := PNone;
       "database_name" := PNone;
       "connection_status" := PStr "Not Connected";
       "collections" := PList [] ]} in
  let response :=
    if negb (db_is_none db) then
      let response := <["database" := PStr "✅ Available"]> response in
      let response := <["database_url" := PStr "✅ Set"]> response in
      match db_name db with
      | inr name =>
          let response :=
            <["database_name" := PStr (default "✅ Connected" name)]> response in
          let response :=
            <["connection_status" := PStr "Connected"]> response in
          match list_collection_names db with
          | inr collections =>
              let response :=
                <["collections" := PList (PStr <$> take 10 collections)]>
                  response in
              <["database" := PStr "✅ Connected & Working"]> response
          | inl e =>
              <["database" :=
                  PStr ("⚠️ Connected but Error: "
                        ++ utf8_take 50 (exc_message e))]> response
          end
      | inl e =>
          <["database" := PStr ("❌ Error: " ++ utf8_take 50 (exc_message e))]>
            response
      end
    else <["database" := PStr "⚠️ Available but not initialized"]> response in
  let response :=
    <["database_url" :=
        PStr (if env_is_set "DATABASE_URL" then "✅ Set" else "❌ Not Set")]>
      response in
  let response :=
    <["database_name" :=
        PStr (if env_is_set "DATABASE_NAME" then "✅ Set" else "❌ Not Set")]>
      response in
  (Ok (PDict response), w).

(** *** Google OAuth scaffolding *)

(** The [params] of the authorization URL, in the order of the dict. *)
Definition oauth_params : list (string * string) :=
  [ ("client_id", GOOGLE_CLIENT_ID env);
    ("redirect_uri", GOOGLE_REDIRECT_URI env);
    ("response_type", "code");
    ("scope", String.concat " " GOOGLE_SCOPES);
    ("access_type", "offline");
    ("prompt", "consent") ].

Definition google_oauth_url : M St pyval :=
  if negb (str_truthy (GOOGLE_CLIENT_ID env))
     || negb (str_truthy (GOOGLE_REDIRECT_URI env))
  then
    ret (PDict
           {[ "ready" := PBool false;
              "message" :=
                PStr "Google OAuth not configured. Add GOOGLE_CLIENT_ID/SECRET/REDIRECT_URI." ]})
  else
    query ← lift (urlencode oauth_params);
    let url := "https://accounts.google.com/o/oauth2/v2/auth?" ++ query in
    ret (PDict {[ "ready" := PBool true; "url" := PStr url ]}).

End Endpoints.

(** ** More test doubles *)

(** A store with room for a fixed number of further documents: a write
    beyond it raises. *)
Record QuotaStore := { qs_db : Database; qs_room : nat }.

#[global] Instance quota_store : DocumentStore QuotaStore := {|
  db_is_none _ := false;
  count_documents name st := inr (Z.of_nat (length (find_all name (qs_db st))));
  create_document name data st :=
    match data, qs_room st with
    | PDict d, S room =>
        let '(oid, db') := insert_one name d (qs_db st) in
        (inr oid, {| qs_db := db'; qs_room := room |})
    | _, _ => (inl (PyExc "PyMongoError" "quota exceeded"), st)
    end;
  get_documents name st := inr (find_all name (qs_db st))
|}.

(** The handle over the modelled store. *)
#[global] Instance spec_handle : DatabaseHandle (option Database) := {|
  db_name st :=
    match st with
    | None => inl store_unavailable
    | Some _ => inr (Some "appdb")
    end;
  list_collection_names st :=
    match st with
    | None => inl store_unavailable
    | Some db => inr (elements (dom (collections db)))
    end
|}.

(** Client id and redirect URI set, client secret missing. *)
Definition env_no_secret : Env := {|
  environ :=
    {[ "GOOGLE_CLIENT_ID" := "client-1";
       "GOOGLE_REDIRECT_URI" := "https://app.example/oauth?next=/a b&x=1" ]};
  stripe := None;
  requests_post := token_endpoint_double
|}.

(** The secret key is set but the SDK could not be imported. *)
Definition env_no_sdk : Env := {|
  environ := {[ "STRIPE_SECRET_KEY" := "sk_test_1";
                "STRIPE_WEBHOOK_SECRET" := "whsec_1" ]};
  stripe := None;
  requests_post := token_endpoint_double
|}.

(** The token endpoint cannot be reached. *)
Definition env_offline : Env := {|
  environ := environ env_configured;
  stripe := Some sdk_double;
  requests_post _ _ := inl (PyExc "ConnectionError" "connection refused")
|}.

(** The token endpoint answers 200 with a JSON array. *)
Definition env_array_answer : Env := {|
  environ := environ env_configured;
  stripe := Some sdk_double;
  requests_post _ _ := inr {| status_code := 200; json := inr (PList []) |}
|}.

(** An SDK double for a sender that holds the secret and signs events
    made of a type and nothing else. *)
Definition sdk_bare : StripeModule := {|
  checkout_Session_create := checkout_Session_create sdk_double;
  Webhook_construct_event payload sig_header secret :=
    if bool_decide (sig_header = Some "v1=good")
    then inr {[ "type" := PStr (String.string_of_list_byte payload) ]}
    else inl (PyExc "SignatureVerificationError" "No signatures found")
|}.

Definition env_bare_events : Env := {|
  environ := environ env_configured;
  stripe := Some sdk_bare;
  requests_post := token_endpoint_double
|}.

(** The configured client id holds a byte that is not UTF-8. *)
Definition env_bad_utf8 : Env := {|
  environ :=
    {[ "GOOGLE_CLIENT_ID" := String "i" (String "d" (String (ascii_of_N 255) ""));
       "GOOGLE_REDIRECT_URI" := "https://app.example/oauth" ]};
  stripe := None;
  requests_post := token_endpoint_double
|}.

(** A delivery whose signature does not verify. *)
Definition forged_delivery : Request :=
  {| body := String.list_byte_of_string "customer.subscription.deleted";
     headers := {[ "stripe-signature" := "v1=forged" ]} |}.

(** A plan document without [_id] and one whose [features] is null. *)
Definition plan_without_id : document :=
  {[ "name" := PStr "Solo"; "price_cents" := PInt 900 ]}.

Definition plan_null_features : document :=
  {[ "_id" := PObjectId "65f0c0e0"; "name" := PStr "Solo";
     "features" := PNone ]}.

(** Every collection but [name] reads the same in [st'] as in [st]. *)
Definition same_elsewhere {St : Type} `{!DocumentStore St}
    (name : string) (st st' : St) : Prop :=
  ∀ other, other ≠ name → get_documents other st' = get_documents other st.

(** ** Properties *)

Open Scope list_scope.

Ltac run :=
  unfold mbind, M_bind, mret, M_ret, bind, ret, raise, try_except, lift,
    log_call, lift_exc in *; simpl in *.

Lemma str_truthy_nonempty s : s ≠ "" → str_truthy s = true.
Proof. by destruct s. Qed.

(** *** The masking comprehension *)

Lemma mask_tokens_lookup (tokens : document) k :
  mask_tokens tokens !! k
    = (λ v, if decide (k = "scope") then v else PStr "***") <$> tokens !! k.
Proof.
  unfold mask_tokens. rewrite map_lookup_imap.
  by destruct (tokens !! k).
Qed.

Lemma mask_tokens_scope (tokens : document) :
  mask_tokens tokens !! "scope" = tokens !! "scope".
Proof. rewrite mask_tokens_lookup. by destruct (tokens !! "scope"). Qed.

Lemma mask_tokens_other (tokens : document) k :
  k ≠ "scope" → mask_tokens tokens !! k = (λ _, PStr "***") <$> tokens !! k.
Proof.
  intros Hk. rewrite mask_tokens_lookup.
  destruct (tokens !! k); simpl; [|done]. by rewrite decide_False.
Qed.

(** The masked mapping depends on the key set and on [scope] only. *)
Lemma mask_tokens_low_equiv (t1 t2 : document) :
  dom t1 = dom t2 → t1 !! "scope" = t2 !! "scope" →
  mask_tokens t1 = mask_tokens t2.
Proof.
  intros Hdom Hscope. apply map_eq. intros k.
  destruct (decide (k = "scope")) as [->|Hk].
  - by rewrite !mask_tokens_scope.
  - rewrite !mask_tokens_other by done.
    assert (is_Some (t1 !! k) ↔ is_Some (t2 !! k)) as Hiff.
    { by rewrite <-!elem_of_dom, Hdom. }
    destruct (t1 !! k) as [v1|] eqn:E1, (t2 !! k) as [v2|] eqn:E2; simpl; try done.
    + destruct Hiff as [Hiff _]. destruct Hiff as [? ?]; [by eexists | done].
    + destruct Hiff as [_ Hiff]. destruct Hiff as [? ?]; [by eexists | done].
Qed.

Section BackendFacts.
Context {St : Type} `{!DocumentStore St} `{!PyRuntime}.
Implicit Types (env : Env) (w : World St).

(** C8.  With no payment-provider credential configured,
    [create_checkout_session] fails with HTTP 400 "Stripe not configured"
    whatever the body holds, and leaves the world as it was: nothing is
    sent to the provider and nothing is stored. *)
Theorem checkout_needs_credential env (payload : CreateCheckoutSessionIn) w :
  STRIPE_SECRET_KEY env = "" →
  create_checkout_session env payload w
    = (Raise (HTTPException 400 "Stripe not configured"), w).
Proof.
  intros Hkey. unfold create_checkout_session. rewrite Hkey. simpl.
  by rewrite orb_true_r.
Qed.

(** C2.  With no webhook signing secret configured, [stripe_webhook]
    answers [{received: true, skipped: true}] for every body and
    signature header and leaves the world as it was: the SDK's
    [construct_event] is not called and no event document is stored. *)
Theorem webhook_skips_without_secret env (request : Request) w :
  STRIPE_WEBHOOK_SECRET env = "" →
  stripe_webhook env request w
    = (Ok (PDict {[ "received" := PBool true; "skipped" := PBool true ]}), w).
Proof.
  intros Hsecret. unfold stripe_webhook. rewrite Hsecret. simpl.
  by rewrite orb_true_r.
Qed.

(** The configuration guard of the callback passes. *)
Lemma oauth_guard_passes env :
  GOOGLE_CLIENT_ID env ≠ "" → GOOGLE_CLIENT_SECRET env ≠ "" →
  GOOGLE_REDIRECT_URI env ≠ "" →
  negb (str_truthy (GOOGLE_CLIENT_ID env))
  || negb (str_truthy (GOOGLE_CLIENT_SECRET env))
  || negb (str_truthy (GOOGLE_REDIRECT_URI env)) = false.
Proof. intros. by rewrite !str_truthy_nonempty. Qed.

(** What the callback does once the provider answered 200 with a JSON
    object: one write is attempted, its outcome is dropped, and the masked
    mapping is returned. *)
Lemma callback_exchanged env body w r (tokens : document) :
  GOOGLE_CLIENT_ID env ≠ "" → GOOGLE_CLIENT_SECRET env ≠ "" →
  GOOGLE_REDIRECT_URI env ≠ "" →
  requests_post env token_url (token_request_data env body) = inr r →
  status_code r = 200 →
  json r = inr (PDict tokens) →
  google_oauth_callback env body w
    = (Ok (PDict {[ "connected" := PBool true;
                    "tokens" := PDict (mask_tokens tokens) ]}),
       MkWorld
         (create_document "googleconnection" (PDict tokens) (store w)).2
         (calls w ++ [CallRequestsPost token_url (token_request_data env body)])).
Proof.
  intros Hid Hsecret Huri Hpost Hstatus Hjson.
  unfold google_oauth_callback. rewrite oauth_guard_passes by done.
  unfold do_requests_post, do_create_document, dict_items. run.
  rewrite Hpost, Hstatus, Hjson. simpl.
  by destruct (create_document _ _ _) as [[e|oid] s'].
Qed.

(** C4.  With OAuth configured, a token endpoint answer whose status is
    not 200 makes the callback fail with HTTP 400 ("Failed to exchange
    code"); the store is the one the request found, so no
    [googleconnection] document is written. *)
Theorem callback_rejected_exchange env body w r :
  GOOGLE_CLIENT_ID env ≠ "" → GOOGLE_CLIENT_SECRET env ≠ "" →
  GOOGLE_REDIRECT_URI env ≠ "" →
  requests_post env token_url (token_request_data env body) = inr r →
  status_code r ≠ 200 →
  ∃ w',
    google_oauth_callback env body w
      = (Raise (HTTPException 400 "Failed to exchange code"), w')
    ∧ http_status (google_oauth_callback env body w).1 = 400
    ∧ store w' = store w.
Proof.
  intros Hid Hsecret Huri Hpost Hstatus.
  unfold google_oauth_callback. rewrite oauth_guard_passes by done.
  unfold do_requests_post. run. rewrite Hpost.
  apply Z.eqb_neq in Hstatus. rewrite Hstatus. simpl.
  by eexists.
Qed.

(** C1.  After a successful exchange (status 200 with a token mapping)
    the response is [{connected: true, tokens: masked}] where [masked] has
    the keys of the token mapping, holds the provider's value under
    [scope] and ["***"] under every other key, so in particular under
    [access_token] and [refresh_token].  The response does not depend on
    the values the provider returned for the other keys: any other
    successful exchange whose token mapping has the same keys and the
    same [scope] gets the same response. *)
Theorem callback_masks_tokens env body w r (tokens : document) :
  GOOGLE_CLIENT_ID env ≠ "" → GOOGLE_CLIENT_SECRET env ≠ "" →
  GOOGLE_REDIRECT_URI env ≠ "" →
  requests_post env token_url (token_request_data env body) = inr r →
  status_code r = 200 →
  json r = inr (PDict tokens) →
  ∃ masked : document,
    (google_oauth_callback env body w).1
      = Ok (PDict {[ "connected" := PBool true; "tokens" := PDict masked ]})
    ∧ dom masked = dom tokens
    ∧ masked !! "scope" = tokens !! "scope"
    ∧ (∀ k, k ≠ "scope" → masked !! k = (λ _, PStr "***") <$> tokens !! k)
    ∧ (∀ k, k ∈ ["access_token"; "refresh_token"] → k ∈ dom tokens →
            masked !! k = Some (PStr "***"))
    ∧ (∀ env' body' w' r' (tokens' : document),
         GOOGLE_CLIENT_ID env' ≠ "" → GOOGLE_CLIENT_SECRET env' ≠ "" →
         GOOGLE_REDIRECT_URI env' ≠ "" →
         requests_post env' token_url (token_request_data env' body') = inr r' →
         status_code r' = 200 →
         json r' = inr (PDict tokens') →
         dom tokens' = dom tokens → tokens' !! "scope" = tokens !! "scope" →
         (google_oauth_callback env' body' w').1
           = (google_oauth_callback env body w).1).
Proof.
  intros Hid Hsecret Huri Hpost Hstatus Hjson.
  exists (mask_tokens tokens). split_and!.
  - by erewrite callback_exchanged.
  - apply set_eq. intros k. rewrite !elem_of_dom, mask_tokens_lookup.
    by rewrite fmap_is_Some.
  - apply mask_tokens_scope.
  - apply mask_tokens_other.
  - intros k Hk [v Hv]%elem_of_dom.
    rewrite mask_tokens_other, Hv; [done|].
    intros ->. by repeat (apply elem_of_cons in Hk as [?|Hk]; [done|]);
      apply elem_of_nil in Hk.
  - intros env' body' w' r' tokens' ? ? ? Hpost' Hstatus' Hjson' Hdom Hscope.
    erewrite (callback_exchanged env'), (callback_exchanged env) by done.
    simpl. by rewrite (mask_tokens_low_equiv tokens' tokens).
Qed.

(** Reading a key a dict holds. *)
Lemma subscript_lookup (d : gmap string pyval) k x :
  d !! k = Some x → subscript (PDict d) k = inr x.
Proof. intros Hk. unfold subscript. by rewrite Hk. Qed.

Lemma subscript_missing (d : gmap string pyval) k :
  d !! k = None → subscript (PDict d) k = inl (PyExc "KeyError" k).
Proof. intros Hk. unfold subscript. by rewrite Hk. Qed.

(** The four names the code accepts. *)
Lemma type_accepted_iff (v : pyval) :
  type_accepted v = true
  ↔ ∃ name, v = PStr name
      ∧ name ∈ [ "checkout.session.completed";
                 "customer.subscription.created";
                 "customer.subscription.updated";
                 "customer.subscription.deleted" ].
Proof.
  unfold type_accepted, accepted_event_types. destruct v; simpl;
    try (split; [done | by intros (name & ? & _)]).
  rewrite bool_decide_eq_true. split.
  - intros Hs. by exists s.
  - by intros (name & [= <-] & Hs).
Qed.

(** C3 (amended).  With the SDK present, a signing secret configured and
    a delivery that verifies to an event [ev] that carries a [type] and,
    when that type is an accepted one, an object under [data], the
    webhook answers [{received: true}] in every case.  It hands a
    [stripeevent] document [{type, data}] to the store exactly when the
    event's type is one of the four accepted names, in the provider's
    spelling [checkout.session.completed],
    [customer.subscription.created], [customer.subscription.updated],
    [customer.subscription.deleted]; otherwise the store is untouched.
    The answer is the same whether the write succeeds or raises. *)
Theorem webhook_stores_accepted_events env (request : Request) w sdk
    (ev : Event) ty obj :
  stripe env = Some sdk →
  STRIPE_WEBHOOK_SECRET env ≠ "" →
  Webhook_construct_event sdk (body request)
    (headers request !! "stripe-signature") (STRIPE_WEBHOOK_SECRET env)
    = inr ev →
  ev !! "type" = Some ty →
  (type_accepted ty = true → event_data_object ev = inr obj) →
  let doc := PDict {[ "type" := ty; "data" := obj ]} in
  let logged : list call :=
    (calls w ++ [CallConstructEvent (body request)
                   (headers request !! "stripe-signature")
                   (STRIPE_WEBHOOK_SECRET env)])%list in
  stripe_webhook env request w
    = (Ok (PDict {[ "received" := PBool true ]}),
       MkWorld
         (if type_accepted ty
          then (create_document "stripeevent" doc (store w)).2
          else store w)
         logged)
  ∧ (type_accepted ty = true
     ↔ ∃ name, ty = PStr name
         ∧ name ∈ [ "checkout.session.completed";
                    "customer.subscription.created";
                    "customer.subscription.updated";
                    "customer.subscription.deleted" ]).
Proof.
  intros Hsdk Hsecret Hverify Htype Hobj doc logged.
  split; [|apply type_accepted_iff].
  unfold stripe_webhook, stripe_Webhook_construct_event, do_create_document.
  rewrite Hsdk, (str_truthy_nonempty _ Hsecret). run. rewrite Hverify.
  rewrite (subscript_lookup _ _ _ Htype).
  destruct (type_accepted ty); [|done].
  rewrite (Hobj eq_refl). simpl.
  by destruct (create_document _ _ _) as [[e|oid] s'].
Qed.

(** C9 (amended).  Whenever the provider answers 200 with a token
    mapping, the callback answers [{connected: true, ...}], whatever the
    write of the [googleconnection] document did.  When that write raises, the
    exception is dropped; if it left the collection without a record, the
    next [list_google_locations] answers
    [{connected: false, locations: []}]. *)
Theorem callback_connected_without_record env body w r (tokens : document) :
  GOOGLE_CLIENT_ID env ≠ "" → GOOGLE_CLIENT_SECRET env ≠ "" →
  GOOGLE_REDIRECT_URI env ≠ "" →
  requests_post env token_url (token_request_data env body) = inr r →
  status_code r = 200 →
  json r = inr (PDict tokens) →
  (google_oauth_callback env body w).1
    = Ok (PDict {[ "connected" := PBool true;
                   "tokens" := PDict (mask_tokens tokens) ]})
  ∧ (∀ e s',
       create_document "googleconnection" (PDict tokens) (store w)
         = (inl e, s') →
       get_documents "googleconnection" s' = inr [] →
       ∃ w',
         google_oauth_callback env body w
           = (Ok (PDict {[ "connected" := PBool true;
                           "tokens" := PDict (mask_tokens tokens) ]}), w')
         ∧ store w' = s'
         ∧ list_google_locations w'
           = (Ok (PDict {[ "connected" := PBool false;
                           "locations" := PList [] ]}), w')).
Proof.
  intros Hid Hsecret Huri Hpost Hstatus Hjson.
  pose proof (callback_exchanged env body w r tokens
                Hid Hsecret Huri Hpost Hstatus Hjson) as Hrun.
  split; [by rewrite Hrun|].
  intros e s' Hwrite Hread. eexists. split_and!; [exact Hrun | |].
  - simpl. by rewrite Hwrite.
  - unfold list_google_locations, do_get_documents. run.
    rewrite Hwrite. simpl. by rewrite Hread.
Qed.

(** *** Validation of plan documents *)

Lemma PlanOut_init_raises a1 a2 a3 a4 a5 a6 e :
  PlanOut_init a1 a2 a3 a4 a5 a6 = Raise e →
  e = ValidationError
        (invalid "id" (validate_str a1) ++ invalid "name" (validate_str a2) ++
         invalid "description" (validate_optional_str a3) ++
         invalid "price_cents" (validate_int a4) ++
         invalid "interval" (validate_str a5) ++
         invalid "features" (validate_list_str a6)).
Proof.
  unfold PlanOut_init.
  destruct (validate_str a1), (validate_str a2), (validate_optional_str a3),
    (validate_int a4), (validate_str a5), (validate_list_str a6);
    simpl; congruence.
Qed.

Lemma PlanOut_init_name_rejected a1 a2 a3 a4 a5 a6 :
  validate_str a2 = None →
  ∃ fields, PlanOut_init a1 a2 a3 a4 a5 a6 = Raise (ValidationError fields)
            ∧ "name" ∈ fields.
Proof.
  intros Hname. unfold PlanOut_init. rewrite Hname.
  destruct (validate_str a1), (validate_optional_str a3),
    (validate_int a4), (validate_str a5), (validate_list_str a6);
    eexists; (split; [reflexivity|]);
    rewrite !elem_of_app; right; left; by apply list_elem_of_singleton.
Qed.

Lemma invalid_elem {A} field (o : option A) x :
  x ∈ invalid field o → x = field ∧ o = None.
Proof.
  destruct o; simpl.
  - by intros ?%elem_of_nil.
  - by intros ->%list_elem_of_singleton.
Qed.

Ltac not_rejected_field :=
  let Hin := fresh "Hin" in
  intros Hin; repeat (apply elem_of_app in Hin as [Hin|Hin]);
  first [ by apply elem_of_nil in Hin
        | by apply invalid_elem in Hin as [? ?] ].

Lemma validate_str_list l :
  forallb is_str l = true → is_Some (mapM validate_str l).
Proof.
  induction l as [|v l IH]; simpl; [by eexists|].
  intros [Hv Hl]%andb_true_iff. destruct (IH Hl) as [ss Hss].
  destruct v; try done. simpl. rewrite Hss. by eexists.
Qed.

(** A document missing [description] is never rejected for it, and the
    entry built from it has no description. *)
Lemma plan_out_description_absent d :
  d !! "description" = None →
  (∀ p, plan_out_of_doc d = Ok p → description p = None)
  ∧ (∀ fields, plan_out_of_doc d = Raise (ValidationError fields) →
               "description" ∉ fields).
Proof.
  intros Habs. unfold plan_out_of_doc, dict_get. rewrite Habs. split.
  - intros p. unfold PlanOut_init. simpl.
    repeat case_match; intros; by simplify_eq.
  - intros fields Hr. apply PlanOut_init_raises in Hr. simplify_eq.
    not_rejected_field.
Qed.

(** A document missing [features] is never rejected for it, and the entry
    built from it has no features. *)
Lemma plan_out_features_absent d :
  d !! "features" = None →
  (∀ p, plan_out_of_doc d = Ok p → features p = [])
  ∧ (∀ fields, plan_out_of_doc d = Raise (ValidationError fields) →
               "features" ∉ fields).
Proof.
  intros Habs. unfold plan_out_of_doc, dict_get_default. rewrite Habs. split.
  - intros p. unfold PlanOut_init. simpl.
    repeat case_match; intros; by simplify_eq.
  - intros fields Hr. apply PlanOut_init_raises in Hr. simplify_eq.
    not_rejected_field.
Qed.

(** A document whose fields are typed as in the schema validates. *)
Lemma plan_out_of_typed_doc d :
  plan_fields_typed d = true → ∃ p, plan_out_of_doc d = Ok p.
Proof.
  unfold plan_fields_typed. rewrite !andb_true_iff.
  intros [[[[Hn Hd] Hp] Hi] Hf].
  unfold plan_out_of_doc, PlanOut_init, dict_get, dict_get_default.
  assert (is_Some (validate_list_str (default (PList []) (d !! "features"))))
    as [fs ->].
  { destruct (d !! "features") as [[]|]; simpl in *; try done.
    by apply validate_str_list. }
  destruct (d !! "name") as [[]|]; try done.
  destruct (d !! "description") as [[]|]; try done;
    destruct (d !! "price_cents") as [[]|]; try done;
    destruct (d !! "interval") as [[]|]; try done;
    simpl; by eexists.
Qed.

(** *** The loop of [get_plans] *)

Lemma for_append_pure_ok {A B} (f : A → result B) (l : list A) w :
  Forall (λ x, ∃ y, f x = Ok y) l →
  ∃ ys, for_append l (λ x w, (f x, w)) w = (Ok ys, w)
        ∧ Forall2 (λ x y, f x = Ok y) l ys.
Proof.
  induction 1 as [|x l [y Hy] _ (ys & Hys & Hall)]; simpl.
  - by exists [].
  - exists (y :: ys). run. rewrite Hy, Hys. split; [done|].
    by constructor.
Qed.

Lemma for_append_pure_raise {A B} (f : A → result B) (l : list A) w x e :
  x ∈ l → f x = Raise e →
  ∃ x' e', x' ∈ l ∧ f x' = Raise e'
           ∧ for_append l (λ x w, (f x, w)) w = (Raise e', w).
Proof.
  intros Hin Hx. induction l as [|x0 l IH]; [by apply elem_of_nil in Hin|].
  simpl. run. destruct (f x0) as [y|e0] eqn:Hx0.
  - apply elem_of_cons in Hin as [->|Hin]; [congruence|].
    destruct (IH Hin) as (x' & e' & Hin' & Hx' & Hrun).
    exists x', e'. rewrite Hrun. split_and!; [|done..].
    apply elem_of_cons. by right.
  - exists x0, e0. split_and!; [|done..]. apply elem_of_cons. by left.
Qed.

(** C7.  Over plan documents whose stored fields are typed as in the
    schema, [get_plans] returns one entry per document, in order; the
    entry of a document without [description] has [description = None]
    and the entry of a document without [features] has [features = []].
    Whatever else a document holds, an absent [description] or
    [features] is never among the fields a validation error names. *)
Theorem get_plans_defaults_absent_fields w (docs : list document) :
  get_documents "plan" (store w) = inr docs →
  Forall (λ d, plan_fields_typed d = true) docs →
  (∃ outs,
     get_plans w = (Ok outs, w)
     ∧ Forall2 (λ (d : document) p,
                  (d !! "description" = None → description p = None)
                  ∧ (d !! "features" = None → features p = []))
               docs outs)
  ∧ (∀ (d : document) fields,
       plan_out_of_doc d = Raise (ValidationError fields) →
       (d !! "description" = None → "description" ∉ fields)
       ∧ (d !! "features" = None → "features" ∉ fields)).
Proof.
  intros Hdocs Htyped. split.
  - destruct (for_append_pure_ok plan_out_of_doc docs w) as (outs & Hrun & Hall).
    { eapply Forall_impl; [exact Htyped|]. apply plan_out_of_typed_doc. }
    exists outs. split.
    + unfold get_plans, do_get_documents. run. by rewrite Hdocs.
    + eapply Forall2_impl; [exact Hall|]. intros d p Hp. split; intros Habs.
      * by apply (plan_out_description_absent d Habs).
      * by apply (plan_out_features_absent d Habs).
  - intros d fields Hr. split; intros Habs.
    + by apply (plan_out_description_absent d Habs).
    + by apply (plan_out_features_absent d Habs).
Qed.

(** C10.  Only [description], [price_cents], [interval] and [features]
    are defaulted: a document holding just a [name] yields the entry with
    [None], [0], ["month"] and [[]].  A stored document without [name] is
    rejected by validation with [name] among the rejected fields, and
    [get_plans] over a collection holding such a document raises a
    validation error (an HTTP 500) instead of returning entries. *)
Theorem get_plans_requires_name w (docs : list document) (d : document) :
  get_documents "plan" (store w) = inr docs →
  d ∈ docs →
  d !! "name" = None →
  (∃ fields, plan_out_of_doc d = Raise (ValidationError fields)
             ∧ "name" ∈ fields)
  ∧ (∃ fields, get_plans w = (Raise (ValidationError fields), w)
               ∧ http_status (get_plans w).1 = 500)
  ∧ (∀ (d' : document) n,
       d' !! "name" = Some (PStr n) → d' !! "description" = None →
       d' !! "price_cents" = None → d' !! "interval" = None →
       d' !! "features" = None →
       plan_out_of_doc d'
         = Ok {| id := py_str (dict_get d' "_id"); name := n;
                 description := None; price_cents := 0;
                 interval := "month"; features := [] |}).
Proof.
  intros Hdocs Hin Hname.
  assert (∃ fields, plan_out_of_doc d = Raise (ValidationError fields)
                    ∧ "name" ∈ fields) as Hd.
  { unfold plan_out_of_doc. apply PlanOut_init_name_rejected.
    unfold dict_get. by rewrite Hname. }
  split_and!; [done| |].
  - destruct Hd as (fields & Hd & _).
    destruct (for_append_pure_raise plan_out_of_doc docs w d _ Hin Hd)
      as (d' & e' & _ & Hd' & Hrun).
    pose proof (PlanOut_init_raises _ _ _ _ _ _ _ Hd') as ->.
    eexists. unfold get_plans, do_get_documents. run.
    rewrite Hdocs, Hrun. done.
  - intros d' n Hn Hdesc Hprice Hint Hfeat.
    unfold plan_out_of_doc, PlanOut_init, dict_get, dict_get_default.
    by rewrite Hn, Hdesc, Hprice, Hint, Hfeat.
Qed.

End BackendFacts.

(** ** The handlers over the modelled store *)

Section SpecStoreFacts.
Context `{!PyRuntime}.
Implicit Types (env : Env) (db : Database) (cs : list call).

Lemma insert_one_find_all name d db :
  find_all name (insert_one name d db).2
    = find_all name db ++ [<["_id" := PObjectId (pretty (next_oid db))]> d].
Proof. unfold find_all at 1. simpl. by rewrite lookup_insert_eq. Qed.

Lemma insert_many_cons name d docs db :
  insert_many name (d :: docs) db
    = insert_many name docs (insert_one name d db).2.
Proof. done. Qed.

Lemma insert_many_find_all name docs db :
  ∃ new, find_all name (insert_many name docs db) = find_all name db ++ new
         ∧ Forall2 stored_as docs new.
Proof.
  revert db. induction docs as [|d docs IH]; intros db.
  - exists []. by rewrite app_nil_r.
  - destruct (IH (insert_one name d db).2) as (new & Hnew & Hall).
    eexists (_ :: new). rewrite insert_many_cons, Hnew.
    rewrite insert_one_find_all, <-app_assoc. split; [done|].
    constructor; [by eexists | done].
Qed.

(** The seeding loop on a store that takes writes. *)
Lemma seed_loop_writable (docs : list document) db cs :
  writable db = true →
  for_each docs
    (λ plan, _ ← do_create_document "plan" (PDict plan); ret tt)
    (MkWorld (Some db) cs)
  = (Ok tt, MkWorld (Some (insert_many "plan" docs db)) cs).
Proof.
  revert db. induction docs as [|d docs IH]; intros db Hw; [done|].
  rewrite insert_many_cons, <-(IH (insert_one "plan" d db).2 Hw).
  simpl. unfold do_create_document at 1. run. by rewrite Hw.
Qed.

Lemma seed_plans_empty env db cs :
  writable db = true → find_all "plan" db = [] →
  seed_plans env (MkWorld (Some db) cs)
    = (Ok tt, MkWorld (Some (insert_many "plan" (SAMPLE_PLANS env) db)) cs).
Proof.
  intros Hw Hempty. unfold seed_plans.
  pose proof (seed_loop_writable (SAMPLE_PLANS env) db cs Hw) as Hloop.
  revert Hloop. generalize (SAMPLE_PLANS env). intros docs Hloop.
  unfold collection, col_count_documents. run. rewrite Hempty. simpl.
  by rewrite Hloop.
Qed.

Lemma seed_plans_nonempty env db cs :
  find_all "plan" db ≠ [] →
  seed_plans env (MkWorld (Some db) cs) = (Ok tt, MkWorld (Some db) cs).
Proof.
  intros Hne. unfold seed_plans, collection, col_count_documents. run.
  by destruct (find_all "plan" db) as [|p ps].
Qed.

(** C5.  From a store that takes writes and holds no plan, the first
    [seed_plans] leaves exactly two plan documents, the two built-in plans
    each stored with an identifier, and a second [seed_plans] changes
    nothing. *)
Theorem seed_plans_twice env db cs :
  writable db = true →
  find_all "plan" db = [] →
  ∃ db1,
    seed_plans env (MkWorld (Some db) cs) = (Ok tt, MkWorld (Some db1) cs)
    ∧ length (find_all "plan" db1) = 2%nat
    ∧ Forall2 stored_as (SAMPLE_PLANS env) (find_all "plan" db1)
    ∧ seed_plans env (MkWorld (Some db1) cs) = (Ok tt, MkWorld (Some db1) cs).
Proof.
  intros Hw Hempty. exists (insert_many "plan" (SAMPLE_PLANS env) db).
  destruct (insert_many_find_all "plan" (SAMPLE_PLANS env) db)
    as (new & Hnew & Hall).
  rewrite Hempty, app_nil_l in Hnew. rewrite Hnew.
  pose proof (Forall2_length _ _ _ Hall) as Hlen.
  change (length (SAMPLE_PLANS env)) with 2%nat in Hlen.
  split_and!; [by apply seed_plans_empty | done | done |].
  apply seed_plans_nonempty. rewrite Hnew. by destruct new.
Qed.

(** C6.  From a store that takes writes and holds no plan, after
    [seed_plans], [get_plans] returns exactly two entries: "Starter" at
    1900 per "month" and "Growth" at 4900 per "month", each with its
    three features in the order of the built-in list. *)
Theorem get_plans_after_seed env db cs :
  writable db = true →
  find_all "plan" db = [] →
  ∃ w1 id1 id2,
    seed_plans env (MkWorld (Some db) cs) = (Ok tt, w1)
    ∧ get_plans w1
      = (Ok [ {| id := id1; name := "Starter";
                 description := Some "For small businesses getting started";
                 price_cents := 1900; interval := "month";
                 features := [ "Connect 1 Google Business Profile";
                               "Basic analytics";
                               "Email support" ] |};
              {| id := id2; name := "Growth";
                 description :=
                   Some "For growing teams managing multiple locations";
                 price_cents := 4900; interval := "month";
                 features := [ "Connect up to 5 locations";
                               "Posts & hours management";
                               "Priority support" ] |} ],
         w1).
Proof.
  intros Hw Hempty.
  destruct (insert_many_find_all "plan" (SAMPLE_PLANS env) db)
    as (new & Hnew & Hall).
  rewrite Hempty, app_nil_l in Hnew.
  unfold SAMPLE_PLANS in Hall.
  apply Forall2_cons_inv_l in Hall as (p1 & new1 & [oid1 ->] & Hall & ->).
  apply Forall2_cons_inv_l in Hall as (p2 & new2 & [oid2 ->] & Hall & ->).
  apply Forall2_nil_inv_l in Hall as ->.
  eexists _, oid1, oid2. split; [by apply seed_plans_empty|].
  unfold get_plans, do_get_documents. run. rewrite Hnew. reflexivity.
Qed.

End SpecStoreFacts.

(** ** The theorems at concrete inputs *)

(** Closed goals over concrete maps are settled by evaluation. *)
Ltac evaluate :=
  vm_compute; repeat split; first [reflexivity | discriminate].

Lemma checkout_needs_credential_witness :
  STRIPE_SECRET_KEY env_unconfigured = ""
  ∧ create_checkout_session env_unconfigured checkout_payload world_empty
    = (Raise (HTTPException 400 "Stripe not configured"), world_empty).
Proof.
  split; [reflexivity|]. by apply checkout_needs_credential.
Defined.

Lemma webhook_skips_without_secret_witness :
  STRIPE_WEBHOOK_SECRET env_unconfigured = ""
  ∧ stripe_webhook env_unconfigured (delivery "invoice.paid") world_empty
    = (Ok (PDict {[ "received" := PBool true; "skipped" := PBool true ]}),
       world_empty).
Proof.
  split; [reflexivity|]. by apply webhook_skips_without_secret.
Defined.

Lemma callback_rejected_exchange_witness :
  let body := {| code := "abc" |} in
  let r := {| status_code := 401;
              json := inr (PDict {[ "error" := PStr "invalid_grant" ]}) |} in
  (requests_post env_configured token_url
     (token_request_data env_configured body) = inr r
   ∧ status_code r ≠ 200)
  ∧ ∃ w',
      google_oauth_callback env_configured body world_empty
        = (Raise (HTTPException 400 "Failed to exchange code"), w')
      ∧ http_status (google_oauth_callback env_configured body world_empty).1
        = 400
      ∧ store w' = store world_empty.
Proof.
  intros body r. split; [evaluate|].
  apply (callback_rejected_exchange env_configured body world_empty r);
    evaluate.
Defined.

Lemma callback_masks_tokens_witness :
  let body := {| code := "4/0AbCd" |} in
  let r := {| status_code := 200; json := inr (PDict token_response) |} in
  (requests_post env_configured token_url
     (token_request_data env_configured body) = inr r
   ∧ status_code r = 200 ∧ json r = inr (PDict token_response))
  ∧ ∃ masked : document,
      (google_oauth_callback env_configured body world_empty).1
        = Ok (PDict {[ "connected" := PBool true; "tokens" := PDict masked ]})
      ∧ masked !! "scope" = Some (PStr "openid email")
      ∧ masked !! "access_token" = Some (PStr "***")
      ∧ masked !! "refresh_token" = Some (PStr "***").
Proof.
  intros body r. split; [evaluate|].
  assert (GOOGLE_CLIENT_ID env_configured ≠ ""
          ∧ GOOGLE_CLIENT_SECRET env_configured ≠ ""
          ∧ GOOGLE_REDIRECT_URI env_configured ≠ "") as (Hid & Hsecret & Huri)
    by evaluate.
  destruct (callback_masks_tokens env_configured body world_empty r
              token_response Hid Hsecret Huri eq_refl eq_refl eq_refl)
    as (masked & Hresp & _ & Hscope & Hother & _).
  exists masked. split_and!; [done| by rewrite Hscope | |];
    by rewrite Hother.
Defined.

Lemma webhook_stores_accepted_events_witness :
  let request := delivery "customer.subscription.updated" in
  let ev : Event :=
    {[ "type" := PStr "customer.subscription.updated";
       "data" := PDict {[ "object" := PDict {[ "id" := PStr "obj_1" ]} ]} ]} in
  (stripe env_configured = Some sdk_double
   ∧ STRIPE_WEBHOOK_SECRET env_configured ≠ ""
   ∧ Webhook_construct_event sdk_double (body request)
       (headers request !! "stripe-signature")
       (STRIPE_WEBHOOK_SECRET env_configured) = inr ev
   ∧ ev !! "type" = Some (PStr "customer.subscription.updated")
   ∧ event_data_object ev = inr (PDict {[ "id" := PStr "obj_1" ]}))
  ∧ (stripe_webhook env_configured request world_empty).1
    = Ok (PDict {[ "received" := PBool true ]})
  ∧ get_documents "stripeevent"
      (store (stripe_webhook env_configured request world_empty).2)
    = inr [ {[ "_id" := PObjectId "0";
               "type" := PStr "customer.subscription.updated";
               "data" := PDict {[ "id" := PStr "obj_1" ]} ]} ].
Proof.
  intros request ev. split; [evaluate|].
  destruct (webhook_stores_accepted_events env_configured request world_empty
              sdk_double ev (PStr "customer.subscription.updated")
              (PDict {[ "id" := PStr "obj_1" ]})) as [Hrun _];
    [reflexivity | evaluate | evaluate | evaluate | intros _; evaluate |].
  rewrite Hrun. split; [done | evaluate].
Defined.

(** C3, as stated, at a correctly signed event of an accepted type that
    holds no [data]: [event["data"]] raises a [KeyError] outside any
    [try], so the delivery is neither stored nor acknowledged (an
    HTTP 500), on a store that takes writes. *)
Lemma webhook_accepted_type_without_data_raises :
  let request := delivery "checkout.session.completed" in
  let ev : Event := {[ "type" := PStr "checkout.session.completed" ]} in
  Webhook_construct_event sdk_bare (body request)
    (headers request !! "stripe-signature")
    (STRIPE_WEBHOOK_SECRET env_bare_events) = inr ev
  ∧ type_accepted (PStr "checkout.session.completed") = true
  ∧ (stripe_webhook env_bare_events request world_empty).1
    = Raise (PyError (PyExc "KeyError" "data"))
  ∧ http_status (stripe_webhook env_bare_events request world_empty).1 = 500
  ∧ get_documents "stripeevent"
      (store (stripe_webhook env_bare_events request world_empty).2)
    = inr [].
Proof. intros request ev. split_and!; evaluate. Qed.

Lemma callback_connected_without_record_witness :
  let body := {| code := "4/0AbCd" |} in
  let r := {| status_code := 200; json := inr (PDict token_response) |} in
  (requests_post env_configured token_url
     (token_request_data env_configured body) = inr r
   ∧ create_document "googleconnection" (PDict token_response)
       (store world_read_only)
     = (inl (PyExc "PyMongoError" "write refused"), Some read_only_db)
   ∧ get_documents "googleconnection" (Some read_only_db) = inr [])
  ∧ ∃ w',
      google_oauth_callback env_configured body world_read_only
        = (Ok (PDict {[ "connected" := PBool true;
                        "tokens" := PDict (mask_tokens token_response) ]}), w')
      ∧ store w' = Some read_only_db
      ∧ list_google_locations w'
        = (Ok (PDict {[ "connected" := PBool false;
                        "locations" := PList [] ]}), w').
Proof.
  intros body r. split; [evaluate|].
  assert (GOOGLE_CLIENT_ID env_configured ≠ ""
          ∧ GOOGLE_CLIENT_SECRET env_configured ≠ ""
          ∧ GOOGLE_REDIRECT_URI env_configured ≠ "") as (Hid & Hsecret & Huri)
    by evaluate.
  destruct (callback_connected_without_record env_configured body
              world_read_only r token_response
              Hid Hsecret Huri eq_refl eq_refl eq_refl) as [_ Hfailed].
  apply (Hfailed (PyExc "PyMongoError" "write refused") (Some read_only_db));
    reflexivity.
Defined.

(** C9, as stated, at a token endpoint that answers 200 with a JSON
    array instead of a token mapping: [tokens.items()] raises an
    [AttributeError] after the write, so the callback does not answer
    [{connected: true}] (an HTTP 500), on a store that takes writes. *)
Lemma callback_200_without_mapping_raises :
  let body := {| code := "4/0AbCd" |} in
  let answer := google_oauth_callback env_array_answer body world_empty in
  (GOOGLE_CLIENT_ID env_array_answer ≠ ""
   ∧ GOOGLE_CLIENT_SECRET env_array_answer ≠ ""
   ∧ GOOGLE_REDIRECT_URI env_array_answer ≠ "")
  ∧ requests_post env_array_answer token_url
      (token_request_data env_array_answer body)
    = inr {| status_code := 200; json := inr (PList []) |}
  ∧ answer.1
    = Raise (PyError (PyExc "AttributeError"
                        "object has no attribute 'items'"))
  ∧ http_status answer.1 = 500
  ∧ get_documents "googleconnection" (store answer.2) = inr [].
Proof. intros body answer. split_and!; evaluate. Qed.

Lemma get_plans_defaults_absent_fields_witness :
  (get_documents "plan" (store (world_of_plans [bare_plan])) = inr [bare_plan]
   ∧ Forall (λ d, plan_fields_typed d = true) [bare_plan]
   ∧ bare_plan !! "description" = None ∧ bare_plan !! "features" = None)
  ∧ get_plans (world_of_plans [bare_plan])
    = (Ok [ {| id := "65f0c0de"; name := "Solo"; description := None;
               price_cents := 900; interval := "year"; features := [] |} ],
       world_of_plans [bare_plan]).
Proof.
  assert (Forall (λ d, plan_fields_typed d = true) [bare_plan]) as Htyped.
  { constructor; [evaluate | constructor]. }
  assert (get_documents "plan" (store (world_of_plans [bare_plan]))
          = inr [bare_plan]) as Hdocs by evaluate.
  split; [split_and!; [exact Hdocs | exact Htyped | evaluate..] |].
  destruct (get_plans_defaults_absent_fields (world_of_plans [bare_plan])
              [bare_plan] Hdocs Htyped) as [(outs & Hrun & _) _].
  rewrite Hrun. revert Hrun. vm_compute. congruence.
Defined.

Lemma get_plans_requires_name_witness :
  let docs := [bare_plan; nameless_plan] in
  (get_documents "plan" (store (world_of_plans docs)) = inr docs
   ∧ nameless_plan ∈ docs ∧ nameless_plan !! "name" = None)
  ∧ get_plans (world_of_plans docs)
    = (Raise (ValidationError ["name"]), world_of_plans docs).
Proof.
  intros docs.
  assert (nameless_plan ∈ docs) as Hin by (right; left).
  assert (get_documents "plan" (store (world_of_plans docs)) = inr docs)
    as Hdocs by evaluate.
  assert (nameless_plan !! "name" = None) as Hname by evaluate.
  split; [done|].
  destruct (get_plans_requires_name (world_of_plans docs) docs nameless_plan
              Hdocs Hin Hname) as (_ & (fields & Hrun & _) & _).
  rewrite Hrun. revert Hrun. vm_compute. congruence.
Defined.

Lemma seed_plans_twice_witness :
  (writable empty_db = true ∧ find_all "plan" empty_db = [])
  ∧ ∃ db1,
      seed_plans env_unconfigured world_empty
        = (Ok tt, MkWorld (Some db1) [])
      ∧ length (find_all "plan" db1) = 2%nat
      ∧ seed_plans env_unconfigured (MkWorld (Some db1) [])
        = (Ok tt, MkWorld (Some db1) []).
Proof.
  split; [done|].
  destruct (seed_plans_twice env_unconfigured empty_db [] eq_refl eq_refl)
    as (db1 & Hfirst & Hlen & _ & Hsecond).
  by exists db1.
Defined.

Lemma get_plans_after_seed_witness :
  (writable empty_db = true ∧ find_all "plan" empty_db = [])
  ∧ ∃ w1 outs,
      seed_plans env_unconfigured world_empty = (Ok tt, w1)
      ∧ get_plans w1 = (Ok outs, w1)
      ∧ (λ p, (name p, price_cents p, interval p)) <$> outs
        = [("Starter", 1900, "month"); ("Growth", 4900, "month")].
Proof.
  split; [done|].
  destruct (get_plans_after_seed env_unconfigured empty_db [] eq_refl eq_refl)
    as (w1 & id1 & id2 & Hseed & Hplans).
  exists w1. eexists. split_and!; [done | exact Hplans | done].
Defined.

(** ** Further properties of the handlers *)

Section SeedFacts.
Context {St : Type} `{!DocumentStore St}.
Implicit Types (env : Env) (w : World St).

(** The body of [seed_plans] when the guard [count == 0] does not let the
    loop run. *)
Lemma seed_plans_skips_loop env w :
  db_is_none (store w) = true
  ∨ (∃ e, count_documents "plan" (store w) = inl e)
  ∨ (∃ n, count_documents "plan" (store w) = inr n ∧ n ≠ 0) →
  seed_plans env w = (Ok tt, w).
Proof.
  unfold seed_plans, collection, col_count_documents. run.
  intros [Hnone | [[e He] | (n & Hn & Hne)]].
  - by rewrite Hnone.
  - destruct (db_is_none (store w)); [done|]. by rewrite He.
  - destruct (db_is_none (store w)); [done|]. rewrite Hn. simpl.
    by rewrite decide_False.
Qed.

(** X1.  [seed_plans] never raises: whatever the store answers or raises,
    the startup hook returns normally. *)
Theorem seed_plans_never_raises env w :
  (seed_plans env w).1 = Ok tt.
Proof.
  unfold seed_plans, try_except.
  match goal with
  | |- (match ?m with _ => _ end).1 = _ => by destruct m as [[[]|e] w']
  end.
Qed.

(** X2.  With no connection, with a count that raises, or with a plan
    collection that already holds a document, [seed_plans] returns
    normally and changes neither the store nor the log of calls. *)
Theorem seed_plans_leaves_populated_store env w :
  db_is_none (store w) = true
  ∨ (∃ e, count_documents "plan" (store w) = inl e)
  ∨ (∃ n, count_documents "plan" (store w) = inr n ∧ n ≠ 0) →
  seed_plans env w = (Ok tt, w).
Proof. apply seed_plans_skips_loop. Qed.

(** The seed when the write of the first of two plans succeeds and the
    write of the second raises: the exception is dropped and the store is
    the one the two writes left. *)
Lemma seed_plans_second_write_raises env w (p1 p2 : document) oid s1 e s2 :
  SAMPLE_PLANS env = [p1; p2] →
  db_is_none (store w) = false →
  count_documents "plan" (store w) = inr 0 →
  create_document "plan" (PDict p1) (store w) = (inr oid, s1) →
  create_document "plan" (PDict p2) s1 = (inl e, s2) →
  seed_plans env w = (Ok tt, MkWorld s2 (calls w)).
Proof.
  intros Hplans Hdb Hcount Hfirst Hsecond.
  unfold seed_plans. rewrite Hplans. cbn [for_each].
  unfold collection, col_count_documents, do_create_document. run.
  rewrite Hdb, Hcount. simpl. rewrite Hfirst. simpl. by rewrite Hsecond.
Qed.

End SeedFacts.

Section SeedQuota.
Implicit Types (env : Env) (q : QuotaStore).

(** X3.  A seed that fails half-way is not repaired.  On a store with an
    empty plan collection and room for one more document, [seed_plans]
    returns normally, and the collection then holds exactly one document,
    the first built-in plan under a generated identifier: the second
    plan is missing and its exception is dropped.  Every later
    [seed_plans] leaves that store as it is, however much room the store
    has by then: the missing plan is never added. *)
Theorem seed_plans_partial_failure_stays env q cs :
  qs_room q = 1%nat →
  find_all "plan" (qs_db q) = [] →
  ∃ q' (p1 p2 kept : document),
    SAMPLE_PLANS env = [p1; p2]
    ∧ seed_plans env (MkWorld q cs) = (Ok tt, MkWorld q' cs)
    ∧ find_all "plan" (qs_db q') = [kept]
    ∧ stored_as p1 kept
    ∧ ∀ room,
        let later := MkWorld {| qs_db := qs_db q'; qs_room := room |} cs in
        seed_plans env later = (Ok tt, later).
Proof.
  destruct q as [db room]. cbn [qs_room qs_db]. intros -> Hempty.
  destruct (SAMPLE_PLANS env) as [|p1 [|p2 [|]]] eqn:Hplans;
    try discriminate Hplans.
  exists {| qs_db := (insert_one "plan" p1 db).2; qs_room := 0 |}, p1, p2,
    (<["_id" := PObjectId (pretty (next_oid db))]> p1).
  split; [done|]. split.
  { apply (seed_plans_second_write_raises env
             (MkWorld {| qs_db := db; qs_room := 1 |} cs) p1 p2
             (pretty (next_oid db))
             {| qs_db := (insert_one "plan" p1 db).2; qs_room := 0 |}
             (PyExc "PyMongoError" "quota exceeded")
             {| qs_db := (insert_one "plan" p1 db).2; qs_room := 0 |});
      [done | done | cbn; by rewrite Hempty | done | done]. }
  cbn [qs_db]. rewrite insert_one_find_all, Hempty. split; [done|].
  split; [by eexists|].
  intros room. apply seed_plans_skips_loop. right; right.
  exists 1. split; [|done].
  change (@inr pyexc Z
            (Z.of_nat (length (find_all "plan" (insert_one "plan" p1 db).2)))
          = inr 1).
  by rewrite insert_one_find_all, Hempty.
Qed.

End SeedQuota.

(** ** The authorization URL *)

Lemma string_app_nil (t : string) : ("" ++ t)%string = t.
Proof. done. Qed.

Lemma string_app_cons c (s t : string) :
  (String c s ++ t)%string = String c (s ++ t)%string.
Proof. done. Qed.

Lemma string_app_assoc (s t u : string) :
  ((s ++ t) ++ u = s ++ (t ++ u))%string.
Proof.
  induction s as [|c s IH]; [done|]. rewrite !string_app_cons. by f_equal.
Qed.

Lemma all_bytes_app p (s t : string) :
  all_bytes p (s ++ t)%string = all_bytes p s && all_bytes p t.
Proof.
  induction s as [|c s IH]; [done|]. rewrite string_app_cons. simpl.
  by rewrite IH, andb_assoc.
Qed.

Lemma count_byte_app c (s t : string) :
  count_byte c (s ++ t)%string = (count_byte c s + count_byte c t)%nat.
Proof.
  induction s as [|c' s IH]; [done|]. rewrite string_app_cons. simpl.
  rewrite IH. lia.
Qed.

(** What one byte is written as: safe bytes, [%] and [+] only, hence
    neither of the separators; and it reads back as that byte. *)
Lemma quote_plus_byte_facts (c : ascii) :
  all_bytes query_byte (quote_plus_byte c) = true
  ∧ count_byte "&" (quote_plus_byte c) = 0%nat
  ∧ count_byte "=" (quote_plus_byte c) = 0%nat
  ∧ ∀ t, unquote_plus (quote_plus_byte c ++ t)%string
         = String c (unquote_plus t).
Proof.
  destruct c as [[] [] [] [] [] [] [] []].
  all: split; [vm_compute; reflexivity|].
  all: split; [vm_compute; reflexivity|].
  all: split; [vm_compute; reflexivity|].
  all: intros t; reflexivity.
Qed.

Lemma quote_plus_bytes_facts (s : string) :
  all_bytes query_byte (quote_plus_bytes s) = true
  ∧ count_byte "&" (quote_plus_bytes s) = 0%nat
  ∧ count_byte "=" (quote_plus_bytes s) = 0%nat
  ∧ unquote_plus (quote_plus_bytes s) = s.
Proof.
  induction s as [|c s (IH1 & IH2 & IH3 & IH4)]; [done|].
  destruct (quote_plus_byte_facts c) as (H1 & H2 & H3 & H4).
  cbn [quote_plus_bytes].
  by rewrite all_bytes_app, !count_byte_app, H1, H2, H3, H4, IH1, IH2, IH3, IH4.
Qed.

Lemma cut_at_first sep (a b : string) :
  count_byte sep a = 0%nat →
  cut_at sep (a ++ String sep b)%string = (a, Some b).
Proof.
  induction a as [|c a IH].
  - intros _. rewrite string_app_nil. simpl. by rewrite bool_decide_true.
  - rewrite string_app_cons. simpl. case_bool_decide; [done|].
    intros Hcount. by rewrite IH.
Qed.

Lemma split_on_none sep (a : string) :
  count_byte sep a = 0%nat → split_on sep a = [a].
Proof.
  induction a as [|c a IH]; simpl; [done|].
  case_bool_decide; [done|]. intros Hcount. by rewrite IH.
Qed.

Lemma split_on_first sep (a b : string) :
  count_byte sep a = 0%nat →
  split_on sep (a ++ String sep b)%string = a :: split_on sep b.
Proof.
  induction a as [|c a IH].
  - intros _. rewrite string_app_nil. simpl. by rewrite bool_decide_true.
  - rewrite string_app_cons. simpl. case_bool_decide; [done|].
    intros Hcount. by rewrite IH.
Qed.

(** One [name=value] field of the query. *)
Lemma query_field_facts (kv : string * string) :
  all_bytes query_byte (quote_plus_bytes kv.1 ++ "=" ++ quote_plus_bytes kv.2)%string = true
  ∧ count_byte "&" (quote_plus_bytes kv.1 ++ "=" ++ quote_plus_bytes kv.2)%string = 0%nat
  ∧ count_byte "=" (quote_plus_bytes kv.1 ++ "=" ++ quote_plus_bytes kv.2)%string = 1%nat
  ∧ cut_at "=" (quote_plus_bytes kv.1 ++ "=" ++ quote_plus_bytes kv.2)%string = (quote_plus_bytes kv.1, Some (quote_plus_bytes kv.2)).
Proof.
  destruct (quote_plus_bytes_facts kv.1) as (K1 & K2 & K3 & _).
  destruct (quote_plus_bytes_facts kv.2) as (V1 & V2 & V3 & _).
  rewrite !all_bytes_app, !count_byte_app, K1, K2, K3, V1, V2, V3.
  split_and!; [done..|].
  change ("=" ++ quote_plus_bytes kv.2)%string with (String "=" (quote_plus_bytes kv.2)).
  by apply cut_at_first.
Qed.

Lemma urlencode_bytes_cons kv kv' q :
  urlencode_bytes (kv :: kv' :: q)
  = ((quote_plus_bytes kv.1 ++ "=" ++ quote_plus_bytes kv.2)
       ++ String "&" (urlencode_bytes (kv' :: q)))%string.
Proof. done. Qed.

Lemma urlencode_bytes_facts (q : list (string * string)) :
  all_bytes query_byte (urlencode_bytes q) = true
  ∧ count_byte "&" (urlencode_bytes q) = pred (length q)
  ∧ count_byte "=" (urlencode_bytes q) = length q
  ∧ (q ≠ [] →
     split_on "&" (urlencode_bytes q)
     = map (λ kv, quote_plus_bytes kv.1 ++ "=" ++ quote_plus_bytes kv.2)%string q).
Proof.
  induction q as [|kv q (IH1 & IH2 & IH3 & IH4)]; [done|].
  destruct (query_field_facts kv) as (F1 & F2 & F3 & _).
  destruct q as [|kv' q].
  - split_and!; [done..|]. intros _. by apply split_on_none.
  - rewrite urlencode_bytes_cons.
    rewrite (all_bytes_app _ (quote_plus_bytes kv.1 ++ "=" ++ quote_plus_bytes kv.2)%string),
      (count_byte_app "&" (quote_plus_bytes kv.1 ++ "=" ++ quote_plus_bytes kv.2)%string),
      (count_byte_app "=" (quote_plus_bytes kv.1 ++ "=" ++ quote_plus_bytes kv.2)%string), F1, F2, F3.
    cbn [all_bytes count_byte]. rewrite IH1, IH2, IH3.
    split_and!; [done..|]. intros _.
    rewrite split_on_first by done. by rewrite IH4.
Qed.

(** Decoding the encoded query gives back the parameters. *)
Lemma parse_query_urlencode_bytes (q : list (string * string)) :
  parse_query (urlencode_bytes q) = q.
Proof.
  destruct q as [|kv q]; [done|].
  destruct (urlencode_bytes_facts (kv :: q)) as (_ & _ & Heq & Hsplit).
  unfold parse_query. destruct (urlencode_bytes (kv :: q)) as [|c s] eqn:Henc; [done|].
  rewrite Hsplit by done. rewrite map_map.
  rewrite <-(map_id (kv :: q)) at 2. apply map_ext. intros [k v].
  destruct (query_field_facts (k, v)) as (_ & _ & _ & ->). simpl.
  destruct (quote_plus_bytes_facts k) as (_ & _ & _ & ->).
  by destruct (quote_plus_bytes_facts v) as (_ & _ & _ & ->).
Qed.

(** [urlencode] succeeds exactly when every name and value is valid
    UTF-8, and then returns the quoted bytes. *)
Lemma urlencode_fields_cases (q : list (string * string)) :
  (forallb (λ kv, utf8_valid kv.1 && utf8_valid kv.2) q = true
   ∧ urlencode_fields q
     = inr (map (λ kv, quote_plus_bytes kv.1 ++ "=" ++ quote_plus_bytes kv.2)%string
                q))
  ∨ (forallb (λ kv, utf8_valid kv.1 && utf8_valid kv.2) q = false
     ∧ ∃ e, urlencode_fields q = inl e).
Proof.
  induction q as [|[k v] q IH]; [by left|].
  cbn [urlencode_fields forallb map fst snd]. unfold quote_plus.
  destruct (utf8_valid k); [|right; split; [done | by eexists]].
  destruct (utf8_valid v); [|right; split; [done | by eexists]].
  destruct IH as [[-> ->] | [-> [e ->]]]; [by left|].
  right. split; [done | by eexists].
Qed.

Lemma urlencode_cases (q : list (string * string)) :
  (forallb (λ kv, utf8_valid kv.1 && utf8_valid kv.2) q = true
   ∧ urlencode q = inr (urlencode_bytes q))
  ∨ (forallb (λ kv, utf8_valid kv.1 && utf8_valid kv.2) q = false
     ∧ ∃ e, urlencode q = inl e).
Proof.
  unfold urlencode, urlencode_bytes.
  destruct (urlencode_fields_cases q) as [[Hv ->] | [Hv [e ->]]];
    [by left | right; split; [done | by eexists]].
Qed.

Lemma oauth_params_valid env :
  forallb (λ kv, utf8_valid kv.1 && utf8_valid kv.2) (oauth_params env)
  = utf8_valid (GOOGLE_CLIENT_ID env) && utf8_valid (GOOGLE_REDIRECT_URI env).
Proof.
  unfold oauth_params. cbn [forallb fst snd].
  generalize (utf8_valid (GOOGLE_CLIENT_ID env)),
    (utf8_valid (GOOGLE_REDIRECT_URI env)).
  by intros [] [].
Qed.

Section UrlRuns.
Context {St : Type} `{!DocumentStore St} `{!DatabaseHandle St}.
Implicit Types (env : Env) (w : World St).

(** The URL endpoint past its guard: a URL when the client id and the
    redirect URI are valid UTF-8, the encoder's exception otherwise. *)
Lemma google_oauth_url_ready env w :
  GOOGLE_CLIENT_ID env ≠ "" →
  GOOGLE_REDIRECT_URI env ≠ "" →
  (utf8_valid (GOOGLE_CLIENT_ID env) && utf8_valid (GOOGLE_REDIRECT_URI env)
   = true
   ∧ google_oauth_url env w
     = (Ok (PDict
              {[ "ready" := PBool true;
                 "url" := PStr ("https://accounts.google.com/o/oauth2/v2/auth?"
                                ++ urlencode_bytes (oauth_params env))%string ]}),
        w))
  ∨ (utf8_valid (GOOGLE_CLIENT_ID env) && utf8_valid (GOOGLE_REDIRECT_URI env)
     = false
     ∧ ∃ e, google_oauth_url env w = (Raise (PyError e), w)).
Proof.
  intros Hid Huri. unfold google_oauth_url.
  rewrite (str_truthy_nonempty _ Hid), (str_truthy_nonempty _ Huri).
  unfold mbind, M_bind, bind, lift, lift_exc.
  destruct (urlencode_cases (oauth_params env)) as [[Hv ->] | [Hv [e ->]]];
    rewrite (oauth_params_valid env) in Hv;
    [by left | right; split; [done | by eexists]].
Qed.

End UrlRuns.

Section GatewayFacts.
Context {St : Type} `{!DocumentStore St}.
Implicit Types (env : Env) (w : World St).

(** X4.  With a signing secret configured, a delivery the SDK does not
    verify is refused with HTTP 400 carrying the SDK's message; the
    verification is the only call made and the store is not touched. *)
Theorem webhook_rejects_unverified env (request : Request) w sdk e :
  stripe env = Some sdk →
  STRIPE_WEBHOOK_SECRET env ≠ "" →
  Webhook_construct_event sdk (body request)
    (headers request !! "stripe-signature") (STRIPE_WEBHOOK_SECRET env)
    = inl e →
  stripe_webhook env request w
    = (Raise (HTTPException 400 (exc_message e)),
       MkWorld (store w)
         (calls w ++ [CallConstructEvent (body request)
                        (headers request !! "stripe-signature")
                        (STRIPE_WEBHOOK_SECRET env)])).
Proof.
  intros Hsdk Hsecret Hverify.
  unfold stripe_webhook, stripe_Webhook_construct_event.
  rewrite Hsdk, (str_truthy_nonempty _ Hsecret). run. by rewrite Hverify.
Qed.

(** X5.  Whatever the store does, the webhook answers 200 or 400; its
    only other answer is the 500 of an uncaught [KeyError] or
    [TypeError], which arises exactly for a delivery that verifies to an
    event without [type], or to an event of an accepted type whose
    [data] holds no readable [object]; nothing is stored then. *)
Theorem webhook_500_only_for_malformed_event env (request : Request) w :
  let answer := stripe_webhook env request w in
  (http_status answer.1 = 200 ∨ http_status answer.1 = 400
   ∨ http_status answer.1 = 500)
  ∧ (http_status answer.1 = 500
     ↔ ∃ sdk (ev : Event),
         stripe env = Some sdk
         ∧ STRIPE_WEBHOOK_SECRET env ≠ ""
         ∧ Webhook_construct_event sdk (body request)
             (headers request !! "stripe-signature")
             (STRIPE_WEBHOOK_SECRET env) = inr ev
         ∧ (ev !! "type" = None
            ∨ ∃ ty e, ev !! "type" = Some ty ∧ type_accepted ty = true
                      ∧ event_data_object ev = inl e))
  ∧ (http_status answer.1 = 500 → store answer.2 = store w).
Proof.
  unfold stripe_webhook, stripe_Webhook_construct_event, do_create_document.
  destruct (stripe env) as [sdk|] eqn:Hsdk; simpl; cycle 1.
  { split_and!; [by left | | done].
    split; [done | by intros (? & ? & ? & _)]. }
  destruct (STRIPE_WEBHOOK_SECRET env) as [|c secret] eqn:Hsecret; simpl.
  { split_and!; [by left | | done].
    split; [done | by intros (? & ? & _ & ? & _)]. }
  run.
  destruct (Webhook_construct_event sdk _ _ _) as [e|ev] eqn:Hverify; simpl.
  { split_and!; [by right; left | | done].
    split; [done|]. intros (sdk' & ev' & [= <-] & _ & Hev & _). congruence. }
  destruct (ev !! "type") as [ty|] eqn:Htype; cycle 1.
  { rewrite (subscript_missing _ _ Htype). simpl.
    split_and!; [by right; right | | done].
    split; [|done]. intros _. exists sdk, ev. split_and!; [done..|by left]. }
  rewrite (subscript_lookup _ _ _ Htype).
  destruct (type_accepted ty) eqn:Hacc; cycle 1.
  { simpl. split_and!; [by left | | done].
    split; [done|].
    intros (sdk' & ev' & [= <-] & _ & Hev & Hbad).
    rewrite Hverify in Hev. injection Hev as <-.
    destruct Hbad as [Hnone | (ty' & e & Hty & Hacc' & _)]; congruence. }
  destruct (event_data_object ev) as [e|obj] eqn:Hobj; simpl.
  { split_and!; [by right; right | | done].
    split; [|done]. intros _. exists sdk, ev. split_and!; [done..|].
    right. by exists ty, e. }
  destruct (create_document _ _ _) as [[e|oid] s']; simpl;
    (split_and!; [by left | | done]); (split; [done|]);
    intros (sdk' & ev' & [= <-] & _ & Hev & Hbad);
    rewrite Hverify in Hev; injection Hev as <-;
    destruct Hbad as [Hnone | (ty' & e' & Hty & _ & He)]; congruence.
Qed.

(** X6.  With the SDK present and a secret key set, the checkout endpoint
    makes exactly one SDK call, for a subscription with the one line item
    [(price_id, 1)] and the success URL extended by the session-id
    placeholder; it returns the session's id and url, or HTTP 400 with
    the SDK's message when the SDK raises.  The store is not touched. *)
Theorem checkout_follows_sdk env (payload : CreateCheckoutSessionIn) w sdk :
  stripe env = Some sdk →
  STRIPE_SECRET_KEY env ≠ "" →
  let args :=
    {| cs_mode := "subscription";
       cs_payment_method_types := ["card"];
       cs_line_items := [(price_id payload, 1)];
       cs_customer_email := customer_email payload;
       cs_success_url :=
         (success_url payload ++ "?session_id={CHECKOUT_SESSION_ID}")%string;
       cs_cancel_url := cancel_url payload |} in
  create_checkout_session env payload w
    = (match checkout_Session_create sdk args with
       | inr session =>
           Ok (PDict {[ "id" := PStr (session_id session);
                        "url" := PStr (session_url session) ]})
       | inl e => Raise (HTTPException 400 (exc_message e))
       end,
       MkWorld (store w) (calls w ++ [CallCheckoutSessionCreate args])).
Proof.
  intros Hsdk Hkey args.
  unfold create_checkout_session, stripe_checkout_Session_create.
  rewrite Hsdk, (str_truthy_nonempty _ Hkey). run.
  by destruct (checkout_Session_create sdk _).
Qed.

(** X7.  The checkout endpoint answers 200 or 400, never a 5xx, and
    never writes to the store, whatever the configuration and the SDK
    do. *)
Theorem checkout_answers_200_or_400 env (payload : CreateCheckoutSessionIn) w :
  (http_status (create_checkout_session env payload w).1 = 200
   ∨ http_status (create_checkout_session env payload w).1 = 400)
  ∧ store (create_checkout_session env payload w).2 = store w.
Proof.
  unfold create_checkout_session, stripe_checkout_Session_create.
  destruct (stripe env) as [sdk|]; simpl; [|by split; [right|]].
  destruct (str_truthy (STRIPE_SECRET_KEY env)); simpl; [|by split; [right|]].
  run. destruct (checkout_Session_create sdk _); simpl; split; auto.
Qed.

(** The credential guard of the two payment endpoints. *)
Lemma checkout_unconfigured env (payload : CreateCheckoutSessionIn) w :
  stripe env = None ∨ STRIPE_SECRET_KEY env = "" →
  create_checkout_session env payload w
    = (Raise (HTTPException 400 "Stripe not configured"), w).
Proof.
  unfold create_checkout_session. intros [-> | ->]; simpl; [done|].
  by rewrite orb_true_r.
Qed.

(** X8.  The health endpoint reports [stripe: true] exactly when the
    secret key is set and not empty.  A [false] flag means checkout is
    refused; a [true] flag does not mean checkout works: when the SDK
    could not be imported, checkout is refused all the same. *)
Theorem root_flag_and_checkout `{!DatabaseHandle St}
    env (payload : CreateCheckoutSessionIn) w :
  ∃ flag : bool,
    root env w
      = (Ok (PDict {[ "message" := PStr "Backend ready";
                      "stripe" := PBool flag ]}), w)
    ∧ (flag = true ↔ STRIPE_SECRET_KEY env ≠ "")
    ∧ (flag = false ∨ stripe env = None →
       create_checkout_session env payload w
         = (Raise (HTTPException 400 "Stripe not configured"), w)).
Proof.
  exists (str_truthy (STRIPE_SECRET_KEY env)). split_and!; [done| |].
  - by destruct (STRIPE_SECRET_KEY env).
  - intros [Hflag | Hsdk]; apply checkout_unconfigured; [right | by left].
    by destruct (STRIPE_SECRET_KEY env).
Qed.

(** The configuration guard of the callback refuses. *)
Lemma callback_unconfigured env body w :
  GOOGLE_CLIENT_ID env = "" ∨ GOOGLE_CLIENT_SECRET env = ""
  ∨ GOOGLE_REDIRECT_URI env = "" →
  google_oauth_callback env body w
    = (Raise (HTTPException 400 "Google OAuth not configured"), w).
Proof.
  unfold google_oauth_callback.
  intros [-> | [-> | ->]]; simpl; by rewrite ?orb_true_r.
Qed.

(** X9.  Without a client id or without a redirect URI, the URL endpoint
    answers 200 with [ready: false] and a message, while the callback
    answers HTTP 400; neither contacts the provider nor the store. *)
Theorem oauth_unconfigured `{!DatabaseHandle St} env body w :
  GOOGLE_CLIENT_ID env = "" ∨ GOOGLE_REDIRECT_URI env = "" →
  google_oauth_url env w
    = (Ok (PDict
             {[ "ready" := PBool false;
                "message" :=
                  PStr "Google OAuth not configured. Add GOOGLE_CLIENT_ID/SECRET/REDIRECT_URI." ]}),
       w)
  ∧ google_oauth_callback env body w
    = (Raise (HTTPException 400 "Google OAuth not configured"), w).
Proof.
  intros Hmissing. split.
  - unfold google_oauth_url.
    destruct Hmissing as [-> | ->]; simpl; by rewrite ?orb_true_r.
  - apply callback_unconfigured. tauto.
Qed.


(** X11.  With OAuth configured, an exchange that does not produce a
    token mapping is an HTTP 500, not a 400: when the request to the
    token endpoint raises, or the 200 answer is not JSON, that exception
    goes through and the store is not touched; when the 200 answer is
    JSON but not an object, the callback raises after the write was
    attempted. *)
Theorem callback_unusable_answer env body w :
  GOOGLE_CLIENT_ID env ≠ "" → GOOGLE_CLIENT_SECRET env ≠ "" →
  GOOGLE_REDIRECT_URI env ≠ "" →
  let posted :=
    calls w ++ [CallRequestsPost token_url (token_request_data env body)] in
  (∀ e,
     requests_post env token_url (token_request_data env body) = inl e →
     google_oauth_callback env body w
       = (Raise (PyError e), MkWorld (store w) posted))
  ∧ (∀ r e,
       requests_post env token_url (token_request_data env body) = inr r →
       status_code r = 200 → json r = inl e →
       google_oauth_callback env body w
         = (Raise (PyError e), MkWorld (store w) posted))
  ∧ (∀ r v,
       requests_post env token_url (token_request_data env body) = inr r →
       status_code r = 200 → json r = inr v →
       (∀ d, v ≠ PDict d) →
       http_status (google_oauth_callback env body w).1 = 500
       ∧ (google_oauth_callback env body w).2
         = MkWorld (create_document "googleconnection" v (store w)).2 posted).
Proof.
  intros Hid Hsecret Huri posted.
  unfold google_oauth_callback. rewrite oauth_guard_passes by done.
  unfold do_requests_post, do_create_document, dict_items. split_and!.
  - intros e Hpost. run. by rewrite Hpost.
  - intros r e Hpost Hstatus Hjson. run. by rewrite Hpost, Hstatus, Hjson.
  - intros r v Hpost Hstatus Hjson Hv. run.
    rewrite Hpost, Hstatus, Hjson. simpl.
    destruct (create_document _ _ _) as [[e|oid] s'];
      destruct v; simpl; try done; by destruct (Hv d).
Qed.

End GatewayFacts.

Section PlanFacts.
Context {St : Type} `{!DocumentStore St} `{!PyRuntime}.
Implicit Types (env : Env) (w : World St) (d : document).

Lemma for_append_pure_run {A B} (f : A → result B) (l : list A) w :
  ∃ r, for_append l (λ x w, (f x, w)) w = (r, w)
       ∧ ∀ ys, r = Ok ys ↔ Forall2 (λ x y, f x = Ok y) l ys.
Proof.
  induction l as [|x l (r & Hrun & Hiff)]; simpl.
  - exists (Ok []). split; [done|]. intros ys. split.
    + intros [= <-]. constructor.
    + by intros ->%Forall2_nil_inv_l.
  - run. rewrite Hrun. destruct (f x) as [y|e] eqn:Hx.
    + destruct r as [ys'|e].
      * exists (Ok (y :: ys')). split; [done|]. intros ys. split.
        -- intros [= <-]. constructor; [done|]. by apply Hiff.
        -- intros (y' & ys'' & Hx' & Hall & ->)%Forall2_cons_inv_l.
           pose proof (proj2 (Hiff _) Hall). congruence.
      * exists (Raise e). split; [done|]. intros ys. split; [done|].
        intros (y' & ys'' & Hx' & Hall & ->)%Forall2_cons_inv_l.
        by pose proof (proj2 (Hiff _) Hall).
    + exists (Raise e). split; [done|]. intros ys. split; [done|].
      intros (y' & ys'' & Hx' & Hall & ->)%Forall2_cons_inv_l. congruence.
Qed.

Lemma PlanOut_init_ok a1 a2 a3 a4 a5 a6 p :
  PlanOut_init a1 a2 a3 a4 a5 a6 = Ok p →
  validate_str a1 = Some (id p) ∧ validate_str a2 = Some (name p)
  ∧ validate_optional_str a3 = Some (description p)
  ∧ validate_int a4 = Some (price_cents p)
  ∧ validate_str a5 = Some (interval p)
  ∧ validate_list_str a6 = Some (features p).
Proof.
  unfold PlanOut_init.
  destruct (validate_str a1), (validate_str a2), (validate_optional_str a3),
    (validate_int a4), (validate_str a5), (validate_list_str a6);
    simpl; intros; by simplify_eq.
Qed.

Lemma plan_out_of_doc_raises d e :
  plan_out_of_doc d = Raise e →
  ∃ fields, e = ValidationError fields
    ∧ ∀ k, k ∈ fields →
        (k = "name" ∧ validate_str (dict_get d "name") = None)
        ∨ (k = "description"
           ∧ validate_optional_str (dict_get d "description") = None)
        ∨ (k = "price_cents"
           ∧ validate_int (dict_get_default d "price_cents" (PInt 0)) = None)
        ∨ (k = "interval"
           ∧ validate_str (dict_get_default d "interval" (PStr "month")) = None)
        ∨ (k = "features"
           ∧ validate_list_str (dict_get_default d "features" (PList [])) = None).
Proof.
  intros Hr. apply PlanOut_init_raises in Hr. eexists. split; [exact Hr|].
  intros k Hk. simpl in Hk.
  repeat (apply elem_of_app in Hk as [Hk|Hk]);
    apply invalid_elem in Hk as [-> Hnone]; tauto.
Qed.

Lemma invalid_None_elem {A} field (o : option A) :
  o = None → field ∈ invalid field o.
Proof. intros ->. by apply list_elem_of_singleton. Qed.

(** X12.  [get_plans] is all or nothing and keeps the order: it returns
    a list exactly when every stored plan document validates, and then
    the list holds one entry per document, in the order the store
    returned them; it never changes the store or calls a collaborator. *)
Theorem get_plans_all_or_nothing w (docs : list document) outs :
  get_documents "plan" (store w) = inr docs →
  ((get_plans w).1 = Ok outs
   ↔ Forall2 (λ d p, plan_out_of_doc d = Ok p) docs outs)
  ∧ (get_plans w).2 = w.
Proof.
  intros Hdocs.
  destruct (for_append_pure_run plan_out_of_doc docs w) as (r & Hrun & Hiff).
  unfold get_plans, do_get_documents. run. rewrite Hdocs, Hrun.
  split; [apply Hiff | done].
Qed.

(** X13.  The [id] of an entry is [str] of the document's [_id]: the
    hexadecimal text of an ObjectId, and the text ["None"] when the
    document has no [_id].  A document is never rejected on account of
    its [_id]. *)
Theorem plan_entry_id d :
  (∀ p, plan_out_of_doc d = Ok p →
        id p = py_str (dict_get d "_id")
        ∧ (∀ hex, d !! "_id" = Some (PObjectId hex) → id p = hex)
        ∧ (d !! "_id" = None → id p = "None"))
  ∧ (∀ fields, plan_out_of_doc d = Raise (ValidationError fields) →
               "id" ∉ fields).
Proof.
  split.
  - intros p Hp. apply PlanOut_init_ok in Hp as (Hid & _). simpl in Hid.
    injection Hid as <-. unfold dict_get. split_and!; [done| |].
    + by intros hex ->.
    + by intros ->.
  - intros fields Hr Hin.
    apply plan_out_of_doc_raises in Hr as (fields' & [= <-] & Hfields).
    by destruct (Hfields _ Hin) as [[? _]|[[? _]|[[? _]|[[? _]|[? _]]]]].
Qed.

(** X14.  The defaults stand in for an absent key only.  A document that
    holds [price_cents], [interval] or [features] with the value null is
    rejected by validation, that field being named in the error. *)
Theorem plan_null_field_rejected d k :
  k ∈ ["price_cents"; "interval"; "features"] →
  d !! k = Some PNone →
  ∃ fields, plan_out_of_doc d = Raise (ValidationError fields) ∧ k ∈ fields.
Proof.
  intros Hk Hnull.
  destruct (plan_out_of_doc d) as [p|e] eqn:Hrun.
  - apply PlanOut_init_ok in Hrun as (_ & _ & _ & Hprice & Hint & Hfeat).
    unfold dict_get_default in *.
    repeat (apply elem_of_cons in Hk as [->|Hk]);
      [| | |by apply elem_of_nil in Hk]; by rewrite Hnull in *.
  - pose proof (PlanOut_init_raises _ _ _ _ _ _ _ Hrun) as ->.
    eexists. split; [done|]. unfold dict_get_default.
    repeat (apply elem_of_cons in Hk as [->|Hk]);
      [| | |by apply elem_of_nil in Hk];
      rewrite Hnull;
      repeat first [ apply elem_of_app; left; by apply invalid_None_elem
                   | apply elem_of_app; right ];
      by apply invalid_None_elem.
Qed.

Ltac validated :=
  simpl in *; try done;
  repeat match goal with
         | H : Some _ = Some _ |- _ => injection H as H; try rewrite <-H
         end;
  try done.

Lemma validate_str_list_id l fs :
  forallb is_str l = true → mapM validate_str l = Some fs → PStr <$> fs = l.
Proof.
  revert fs. induction l as [|v l IH]; intros fs; simpl.
  - by intros _ [= <-].
  - intros [Hv Hl]%andb_true_iff. destruct v; try done. simpl.
    destruct (mapM validate_str l) as [fs'|] eqn:Hfs; [|done].
    simpl. intros [= <-]. simpl. f_equal. by apply IH.
Qed.

(** X15.  For a document whose stored fields have the schema's types,
    the entry carries the stored values unchanged: the name, the
    description (null when absent), the price (0 when absent), the
    interval ("month" when absent) and the features in order (none when
    absent).  No coercion policy alters a value of the declared type. *)
Theorem plan_entry_reflects_document d :
  plan_fields_typed d = true →
  ∃ p, plan_out_of_doc d = Ok p
    ∧ PStr (name p) = dict_get d "name"
    ∧ from_option PStr PNone (description p) = dict_get d "description"
    ∧ PInt (price_cents p) = dict_get_default d "price_cents" (PInt 0)
    ∧ PStr (interval p) = dict_get_default d "interval" (PStr "month")
    ∧ PList (PStr <$> features p) = dict_get_default d "features" (PList []).
Proof.
  intros Htyped. destruct (plan_out_of_typed_doc d Htyped) as [p Hp].
  exists p. split; [done|].
  apply PlanOut_init_ok in Hp as (_ & Hname & Hdesc & Hprice & Hint & Hfeat).
  revert Htyped. unfold plan_fields_typed. rewrite !andb_true_iff.
  intros [[[[Tn Td] Tp] Ti] Tf].
  unfold dict_get, dict_get_default in *.
  split_and!.
  all: try (destruct (d !! "name") as [[]|]; by validated).
  - destruct (d !! "description") as [[]|]; by validated.
  - destruct (d !! "price_cents") as [[]|]; by validated.
  - destruct (d !! "interval") as [[]|]; by validated.
  - destruct (d !! "features") as [[]|]; validated.
    all: f_equal; by apply validate_str_list_id.
Qed.

End PlanFacts.

Section DiagnosticFacts.
Context {St : Type} `{!DocumentStore St} `{!DatabaseHandle St}.
Implicit Types (env : Env) (w : World St).

(** X16.  The diagnostic endpoint never raises and changes nothing,
    whatever the handle does.  It always reports the backend as running,
    and lists at most ten collections: none, or the first ten names the
    driver listed. *)
Theorem test_database_never_raises env w :
  ∃ (response : document) (names : list string),
    test_database env w = (Ok (PDict response), w)
    ∧ response !! "backend" = Some (PStr "✅ Running")
    ∧ response !! "collections" = Some (PList (PStr <$> names))
    ∧ (length names ≤ 10)%nat
    ∧ (names = []
       ∨ ∃ listed, list_collection_names (store w) = inr listed
                   ∧ names = take 10 listed).
Proof.
  unfold test_database.
  destruct (db_is_none (store w)); simpl.
  { eexists _, []. split_and!; [done..|simpl; lia|by left]. }
  destruct (db_name (store w)) as [e|name].
  { eexists _, []. split_and!; [done..|simpl; lia|by left]. }
  destruct (list_collection_names (store w)) as [e|listed] eqn:Hlist.
  { eexists _, []. split_and!; [done..|simpl; lia|by left]. }
  eexists _, (take 10 listed). split_and!; [done..| |].
  - rewrite length_take. lia.
  - right. by exists listed.
Qed.

(** X17.  The [database_url] and [database_name] fields of the
    diagnostic report tell only whether the environment variables
    [DATABASE_URL] and [DATABASE_NAME] are set and not empty: what the
    connection branch wrote there is overwritten.  The [database] field
    never keeps its initial "Not Available" text; with no handle it
    reads "Available but not initialized". *)
Theorem test_database_reports_environment env w :
  ∃ response : document,
    test_database env w = (Ok (PDict response), w)
    ∧ response !! "database_url"
      = Some (PStr (if env_is_set env "DATABASE_URL"
                    then "✅ Set" else "❌ Not Set"))
    ∧ response !! "database_name"
      = Some (PStr (if env_is_set env "DATABASE_NAME"
                    then "✅ Set" else "❌ Not Set"))
    ∧ response !! "database" ≠ Some (PStr "❌ Not Available")
    ∧ (db_is_none (store w) = true →
       response !! "database"
         = Some (PStr "⚠️ Available but not initialized")
       ∧ response !! "connection_status" = Some (PStr "Not Connected")).
Proof.
  unfold test_database.
  destruct (db_is_none (store w)); simpl.
  { eexists. split_and!; done. }
  destruct (db_name (store w)) as [e|name].
  { eexists. split_and!; done. }
  destruct (list_collection_names (store w)) as [e|listed];
    eexists; split_and!; done.
Qed.

End DiagnosticFacts.

Section UrlFacts.
Context {St : Type} `{!DocumentStore St} `{!DatabaseHandle St}.
Implicit Types (env : Env) (w : World St).

(** X18.  Past its guard, the URL endpoint returns a URL exactly when
    the configured client id and redirect URI are valid UTF-8, and
    raises the encoder's exception (an HTTP 500) otherwise.  The query of
    a returned URL holds only URL-safe bytes (letters, digits,
    [_.-~%+=&]) and exactly six [name=value] fields, five [&] and six
    [=], whatever characters the two configured values contain: a
    configured value cannot add or split a parameter. *)
Theorem oauth_url_query_is_safe env w :
  GOOGLE_CLIENT_ID env ≠ "" →
  GOOGLE_REDIRECT_URI env ≠ "" →
  (utf8_valid (GOOGLE_CLIENT_ID env) = true →
   utf8_valid (GOOGLE_REDIRECT_URI env) = true →
   ∃ query,
     google_oauth_url env w
       = (Ok (PDict
                {[ "ready" := PBool true;
                   "url" := PStr ("https://accounts.google.com/o/oauth2/v2/auth?"
                                  ++ query)%string ]}), w)
     ∧ all_bytes query_byte query = true
     ∧ count_byte "&" query = 5%nat
     ∧ count_byte "=" query = 6%nat)
  ∧ (utf8_valid (GOOGLE_CLIENT_ID env) = false
     ∨ utf8_valid (GOOGLE_REDIRECT_URI env) = false →
     ∃ e, google_oauth_url env w = (Raise (PyError e), w)
          ∧ http_status (google_oauth_url env w).1 = 500).
Proof.
  intros Hid Huri.
  destruct (google_oauth_url_ready env w Hid Huri)
    as [[Hvalid Hrun] | [Hvalid [e Hrun]]]; split.
  - intros _ _. exists (urlencode_bytes (oauth_params env)).
    destruct (urlencode_bytes_facts (oauth_params env)) as (H1 & H2 & H3 & _).
    by split_and!.
  - intros [Hbad | Hbad]; rewrite Hbad in Hvalid;
      by rewrite ?andb_false_r in Hvalid.
  - intros Vid Vuri. by rewrite Vid, Vuri in Hvalid.
  - intros _. exists e. by rewrite Hrun.
Qed.

(** X19.  When the configured client id and redirect URI are valid
    UTF-8, decoding the query of the URL the endpoint returns gives back
    the six parameters in order, with the configured client id and
    redirect URI byte for byte, the response type [code], the four
    scopes joined by spaces, [offline] access and the [consent]
    prompt. *)
Theorem oauth_url_round_trip env w :
  GOOGLE_CLIENT_ID env ≠ "" →
  GOOGLE_REDIRECT_URI env ≠ "" →
  utf8_valid (GOOGLE_CLIENT_ID env) = true →
  utf8_valid (GOOGLE_REDIRECT_URI env) = true →
  ∃ query,
    google_oauth_url env w
      = (Ok (PDict
               {[ "ready" := PBool true;
                  "url" := PStr ("https://accounts.google.com/o/oauth2/v2/auth?"
                                 ++ query)%string ]}), w)
    ∧ parse_query query
      = [ ("client_id", GOOGLE_CLIENT_ID env);
          ("redirect_uri", GOOGLE_REDIRECT_URI env);
          ("response_type", "code");
          ("scope",
           "https://www.googleapis.com/auth/business.manage openid email profile");
          ("access_type", "offline");
          ("prompt", "consent") ].
Proof.
  intros Hid Huri Vid Vuri. exists (urlencode_bytes (oauth_params env)).
  destruct (google_oauth_url_ready env w Hid Huri)
    as [[_ Hrun] | [Hbad _]]; [|by rewrite Vid, Vuri in Hbad].
  split; [done|]. by rewrite parse_query_urlencode_bytes.
Qed.

End UrlFacts.

(** ** Which collection a handler writes *)

Section WriterFrames.
Context {St : Type} `{!DocumentStore St}.
Hypothesis create_elsewhere :
  ∀ name data (st : St), same_elsewhere name st (create_document name data st).2.
Implicit Types (env : Env) (w : World St).

Lemma same_elsewhere_refl name (st : St) : same_elsewhere name st st.
Proof. by intros other _. Qed.

Lemma same_elsewhere_trans name (st1 st2 st3 : St) :
  same_elsewhere name st1 st2 → same_elsewhere name st2 st3 →
  same_elsewhere name st1 st3.
Proof. intros H12 H23 other Hne. by rewrite H23, H12. Qed.

Lemma webhook_frame env (request : Request) w :
  same_elsewhere "stripeevent" (store w)
    (store (stripe_webhook env request w).2).
Proof.
  unfold stripe_webhook, stripe_Webhook_construct_event, do_create_document.
  destruct (stripe env) as [sdk|]; simpl; [|apply same_elsewhere_refl].
  destruct (str_truthy (STRIPE_WEBHOOK_SECRET env)); simpl;
    [|apply same_elsewhere_refl].
  run. destruct (Webhook_construct_event _ _ _ _) as [e|ev]; simpl;
    [apply same_elsewhere_refl|].
  destruct (subscript (PDict ev) "type") as [e|ty]; simpl;
    [apply same_elsewhere_refl|].
  destruct (type_accepted ty); simpl; [|apply same_elsewhere_refl].
  destruct (event_data_object ev) as [e|obj]; simpl;
    [apply same_elsewhere_refl|].
  pose proof (create_elsewhere "stripeevent"
                (PDict {[ "type" := ty; "data" := obj ]}) (store w))
    as Hstep.
  by destruct (create_document _ _ _) as [[e|oid] st'].
Qed.

Lemma callback_frame env body w :
  same_elsewhere "googleconnection" (store w)
    (store (google_oauth_callback env body w).2).
Proof.
  unfold google_oauth_callback, do_requests_post, do_create_document,
    dict_items.
  destruct (_ || _); simpl; [apply same_elsewhere_refl|]. run.
  destruct (requests_post env _ _) as [e|r]; simpl;
    [apply same_elsewhere_refl|].
  destruct (status_code r =? 200)%Z; simpl; [|apply same_elsewhere_refl].
  destruct (json r) as [e|tokens]; simpl; [apply same_elsewhere_refl|].
  pose proof (create_elsewhere "googleconnection" tokens (store w)) as Hstep.
  destruct (create_document _ _ _) as [[e|oid] st']; by destruct tokens.
Qed.

Lemma seed_loop_frame (docs : list document) w :
  same_elsewhere "plan" (store w)
    (store
       (for_each docs
          (λ plan, _ ← do_create_document "plan" (PDict plan); ret tt) w).2).
Proof.
  revert w. induction docs as [|d docs IH]; intros w.
  - apply same_elsewhere_refl.
  - cbn [for_each]. unfold do_create_document at 1. run.
    pose proof (create_elsewhere "plan" (PDict d) (store w)) as Hstep.
    destruct (create_document "plan" (PDict d) (store w)) as [[e|oid] st'];
      simpl in *; [exact Hstep|].
    eapply same_elsewhere_trans; [exact Hstep|].
    apply (IH (MkWorld st' (calls w))).
Qed.

Lemma seed_frame env w :
  same_elsewhere "plan" (store w) (store (seed_plans env w).2).
Proof.
  unfold seed_plans, collection, col_count_documents.
  pose proof (seed_loop_frame (SAMPLE_PLANS env) w) as Hloop.
  revert Hloop. generalize (SAMPLE_PLANS env). intros docs Hloop. run.
  destruct (db_is_none (store w)); simpl; [apply same_elsewhere_refl|].
  destruct (count_documents "plan" (store w)) as [e|n]; simpl;
    [apply same_elsewhere_refl|].
  case_decide; simpl; [|apply same_elsewhere_refl].
  by destruct (for_each docs _ w) as [[[]|e] w'].
Qed.

(** The webhook for a delivery that verifies to an event of an accepted
    type with an object under [data]. *)
Lemma webhook_verified env (request : Request) w sdk (ev : Event) ty obj :
  stripe env = Some sdk →
  STRIPE_WEBHOOK_SECRET env ≠ "" →
  Webhook_construct_event sdk (body request)
    (headers request !! "stripe-signature") (STRIPE_WEBHOOK_SECRET env)
    = inr ev →
  ev !! "type" = Some (PStr ty) →
  ty ∈ accepted_event_types →
  event_data_object ev = inr obj →
  stripe_webhook env request w
    = (Ok (PDict {[ "received" := PBool true ]}),
       MkWorld
         (create_document "stripeevent"
            (PDict {[ "type" := PStr ty; "data" := obj ]}) (store w)).2
         (calls w ++ [CallConstructEvent (body request)
                        (headers request !! "stripe-signature")
                        (STRIPE_WEBHOOK_SECRET env)])).
Proof.
  intros Hsdk Hsecret Hverify Htype Hacc Hobj.
  unfold stripe_webhook, stripe_Webhook_construct_event, do_create_document.
  rewrite Hsdk, (str_truthy_nonempty _ Hsecret). run. rewrite Hverify.
  rewrite (subscript_lookup _ _ _ Htype).
  unfold type_accepted. rewrite bool_decide_true by done.
  rewrite Hobj. simpl.
  by destruct (create_document _ _ _) as [[e|oid] s'].
Qed.

End WriterFrames.

(** ** Further properties over the modelled store *)

Section SpecStoreWrites.
Context `{!PyRuntime}.
Implicit Types (env : Env) (db : Database) (st : option Database)
  (cs : list call).

Lemma insert_one_elsewhere name other d db :
  other ≠ name → find_all other (insert_one name d db).2 = find_all other db.
Proof. intros Hne. unfold find_all at 1. simpl. by rewrite lookup_insert_ne. Qed.

(** A write reaches its own collection only, and succeeds or not. *)
Lemma create_document_elsewhere name data st :
  same_elsewhere name st (create_document name data st).2.
Proof.
  intros other Hne. destruct st as [db|]; [|done].
  destruct data; try done. simpl. destruct (writable db); [|done].
  simpl. unfold find_all. simpl. by rewrite lookup_insert_ne.
Qed.

Lemma create_document_writable name (d : document) db :
  writable db = true →
  create_document name (PDict d) (Some db)
  = (inr (pretty (next_oid db)), Some (insert_one name d db).2).
Proof. intros Hw. simpl. by rewrite Hw. Qed.

(** X20.  The webhook does not deduplicate: delivering the same accepted
    event twice to a store that takes writes leaves two [stripeevent]
    documents with the same type and data, under two different
    identifiers, after the ones already there. *)
Theorem webhook_redelivery_duplicates env (request : Request) db cs sdk
    (ev : Event) ty obj :
  stripe env = Some sdk →
  STRIPE_WEBHOOK_SECRET env ≠ "" →
  Webhook_construct_event sdk (body request)
    (headers request !! "stripe-signature") (STRIPE_WEBHOOK_SECRET env)
    = inr ev →
  ev !! "type" = Some (PStr ty) →
  ty ∈ accepted_event_types →
  event_data_object ev = inr obj →
  writable db = true →
  let doc : document := {[ "type" := PStr ty; "data" := obj ]} in
  let w1 := (stripe_webhook env request (MkWorld (Some db) cs)).2 in
  let w2 := (stripe_webhook env request w1).2 in
  ∃ oid1 oid2,
    oid1 ≠ oid2
    ∧ get_documents "stripeevent" (store w2)
      = inr (find_all "stripeevent" db
             ++ [ <["_id" := PObjectId oid1]> doc;
                  <["_id" := PObjectId oid2]> doc ]).
Proof.
  intros Hsdk Hsecret Hverify Htype Hacc Hobj Hw doc w1 w2.
  exists (pretty (next_oid db)), (pretty (N.succ (next_oid db))). split.
  { intros Heq%(inj pretty). lia. }
  unfold w2, w1.
  rewrite (webhook_verified env request _ sdk ev ty obj) by done.
  cbn [snd store].
  rewrite (webhook_verified env request _ sdk ev ty obj) by done.
  cbn [snd store].
  rewrite (create_document_writable _ _ db) by done. cbn [snd].
  rewrite create_document_writable by done.
  cbn [snd store get_documents spec_store].
  rewrite !insert_one_find_all. cbn [next_oid insert_one snd].
  by rewrite <-app_assoc.
Qed.

(** X21.  Each writing handler reaches its own collection only: on the
    modelled store, whatever the configuration, the request and the
    collaborators' answers, the webhook leaves every collection but
    [stripeevent] as it was, the OAuth callback every collection but
    [googleconnection], and the seed every collection but [plan]. *)
Theorem writers_keep_to_their_collection env (request : Request)
    (body : GoogleOAuthCallbackIn) st cs :
  same_elsewhere "stripeevent" st
    (store (stripe_webhook env request (MkWorld st cs)).2)
  ∧ same_elsewhere "googleconnection" st
      (store (google_oauth_callback env body (MkWorld st cs)).2)
  ∧ same_elsewhere "plan" st (store (seed_plans env (MkWorld st cs)).2).
Proof.
  split_and!.
  - apply (webhook_frame create_document_elsewhere).
  - apply (callback_frame create_document_elsewhere).
  - apply (seed_frame create_document_elsewhere).
Qed.

(** X22.  A successful exchange on a store that takes writes stores the
    provider's token mapping as it came, secrets included, under a fresh
    identifier after the records already there; from then on
    [list_google_locations] reports [connected: true] with the two fixed
    demo locations. *)
Theorem callback_stores_tokens_verbatim env body db cs r (tokens : document) :
  GOOGLE_CLIENT_ID env ≠ "" → GOOGLE_CLIENT_SECRET env ≠ "" →
  GOOGLE_REDIRECT_URI env ≠ "" →
  requests_post env token_url (token_request_data env body) = inr r →
  status_code r = 200 →
  json r = inr (PDict tokens) →
  writable db = true →
  let w' := (google_oauth_callback env body (MkWorld (Some db) cs)).2 in
  ∃ stored : document,
    get_documents "googleconnection" (store w')
      = inr (find_all "googleconnection" db ++ [stored])
    ∧ delete "_id" stored = delete "_id" tokens
    ∧ list_google_locations w'
      = (Ok (PDict
               {[ "connected" := PBool true;
                  "locations" :=
                    PList [ PDict {[ "name" := PStr "Demo Location A";
                                     "storeCode" := PStr "A001" ]};
                            PDict {[ "name" := PStr "Demo Location B";
                                     "storeCode" := PStr "B002" ]} ] ]}),
         w').
Proof.
  intros Hid Hsecret Huri Hpost Hstatus Hjson Hw w'.
  unfold w'. erewrite callback_exchanged by done. cbn [snd store].
  rewrite create_document_writable by done. cbn [snd store].
  eexists. split_and!.
  - cbn [get_documents spec_store]. by rewrite insert_one_find_all.
  - by rewrite delete_insert_eq.
  - unfold list_google_locations, do_get_documents, mbind, M_bind, bind,
      lift_exc.
    cbn -[insert_one find_all]. rewrite insert_one_find_all.
    by destruct (find_all "googleconnection" db).
Qed.

(** X23.  Without a database connection the startup seed returns
    normally and says nothing, while the endpoints that read the store
    fail: [get_plans] and [list_google_locations] raise the store's
    exception, an HTTP 500. *)
Theorem no_connection_seed_silent_reads_fail env cs :
  let w := MkWorld (None : option Database) cs in
  seed_plans env w = (Ok tt, w)
  ∧ get_plans w = (Raise (PyError store_unavailable), w)
  ∧ http_status (get_plans w).1 = 500
  ∧ list_google_locations w = (Raise (PyError store_unavailable), w)
  ∧ http_status (list_google_locations w).1 = 500.
Proof. done. Qed.

End SpecStoreWrites.

(** ** The further properties at concrete inputs *)

Lemma seed_plans_leaves_populated_store_witness :
  (∃ n, count_documents "plan" (store (world_of_plans [bare_plan])) = inr n
        ∧ n ≠ 0)
  ∧ seed_plans env_unconfigured (world_of_plans [bare_plan])
    = (Ok tt, world_of_plans [bare_plan]).
Proof.
  assert (∃ n, count_documents "plan" (store (world_of_plans [bare_plan]))
               = inr n ∧ n ≠ 0) as Hcount.
  { exists 1. evaluate. }
  split; [exact Hcount|].
  apply seed_plans_leaves_populated_store. right; right. exact Hcount.
Defined.

Lemma seed_plans_partial_failure_stays_witness :
  let q := {| qs_db := empty_db; qs_room := 1 |} in
  (qs_room q = 1%nat ∧ find_all "plan" (qs_db q) = [])
  ∧ ∃ q' (kept : document),
      seed_plans env_unconfigured (MkWorld q []) = (Ok tt, MkWorld q' [])
      ∧ find_all "plan" (qs_db q') = [kept]
      ∧ kept !! "name" = Some (PStr "Starter")
      ∧ seed_plans env_unconfigured
          (MkWorld {| qs_db := qs_db q'; qs_room := 5 |} [])
        = (Ok tt, MkWorld {| qs_db := qs_db q'; qs_room := 5 |} []).
Proof.
  intros q. split; [by split|].
  destruct (seed_plans_partial_failure_stays env_unconfigured q [])
    as (q' & p1 & p2 & kept & Hplans & Hseed & Hkept & [oid ->] & Hlater);
    [reflexivity | reflexivity |].
  exists q', (<["_id" := PObjectId oid]> p1).
  split_and!; [exact Hseed | exact Hkept | | exact (Hlater 5%nat)].
  injection Hplans as <- _. reflexivity.
Defined.

Lemma webhook_rejects_unverified_witness :
  (stripe env_configured = Some sdk_double
   ∧ STRIPE_WEBHOOK_SECRET env_configured ≠ ""
   ∧ Webhook_construct_event sdk_double (body forged_delivery)
       (headers forged_delivery !! "stripe-signature")
       (STRIPE_WEBHOOK_SECRET env_configured)
     = inl (PyExc "SignatureVerificationError" "No signatures found"))
  ∧ (stripe_webhook env_configured forged_delivery world_empty).1
    = Raise (HTTPException 400 "No signatures found")
  ∧ store (stripe_webhook env_configured forged_delivery world_empty).2
    = Some empty_db.
Proof.
  split; [evaluate|].
  rewrite (webhook_rejects_unverified env_configured forged_delivery
             world_empty sdk_double
             (PyExc "SignatureVerificationError" "No signatures found"));
    [done | reflexivity | evaluate | evaluate].
Defined.

Lemma checkout_follows_sdk_witness :
  (stripe env_configured = Some sdk_double
   ∧ STRIPE_SECRET_KEY env_configured ≠ "")
  ∧ (create_checkout_session env_configured checkout_payload world_empty).1
    = Ok (PDict {[ "id" := PStr "cs_test_1";
                   "url" := PStr "https://checkout.example/cs_test_1" ]})
  ∧ calls (create_checkout_session env_configured checkout_payload
             world_empty).2
    = [ CallCheckoutSessionCreate
          {| cs_mode := "subscription";
             cs_payment_method_types := ["card"];
             cs_line_items := [("price_1", 1)];
             cs_customer_email := "a@example.com";
             cs_success_url :=
               "https://app.example/ok?session_id={CHECKOUT_SESSION_ID}";
             cs_cancel_url := "https://app.example/cancel" |} ].
Proof.
  split; [evaluate|].
  rewrite (checkout_follows_sdk env_configured checkout_payload world_empty
             sdk_double); [done | reflexivity | evaluate].
Defined.

Lemma oauth_unconfigured_witness :
  GOOGLE_CLIENT_ID env_unconfigured = ""
  ∧ (google_oauth_url env_unconfigured world_empty).1
    = Ok (PDict
            {[ "ready" := PBool false;
               "message" :=
                 PStr "Google OAuth not configured. Add GOOGLE_CLIENT_ID/SECRET/REDIRECT_URI." ]})
  ∧ google_oauth_callback env_unconfigured {| code := "4/0AbCd" |} world_empty
    = (Raise (HTTPException 400 "Google OAuth not configured"), world_empty).
Proof.
  split; [reflexivity|].
  destruct (oauth_unconfigured env_unconfigured {| code := "4/0AbCd" |}
              world_empty) as [Hurl Hcallback]; [by left|].
  by rewrite Hurl.
Defined.


Lemma callback_unusable_answer_witness :
  let body := {| code := "4/0AbCd" |} in
  (GOOGLE_CLIENT_ID env_offline ≠ "" ∧ GOOGLE_CLIENT_SECRET env_offline ≠ ""
   ∧ GOOGLE_REDIRECT_URI env_offline ≠ "")
  ∧ (google_oauth_callback env_offline body world_empty).1
    = Raise (PyError (PyExc "ConnectionError" "connection refused"))
  ∧ http_status (google_oauth_callback env_array_answer body world_empty).1
    = 500.
Proof.
  intros body.
  assert (GOOGLE_CLIENT_ID env_offline ≠ ""
          ∧ GOOGLE_CLIENT_SECRET env_offline ≠ ""
          ∧ GOOGLE_REDIRECT_URI env_offline ≠ "") as Hcfg by evaluate.
  split; [exact Hcfg|]. destruct Hcfg as (Hid & Hsecret & Huri).
  destruct (callback_unusable_answer env_offline body world_empty
              Hid Hsecret Huri) as (Hraise & _ & _).
  destruct (callback_unusable_answer env_array_answer body world_empty
              Hid Hsecret Huri) as (_ & _ & Harray).
  split.
  - by rewrite (Hraise (PyExc "ConnectionError" "connection refused")).
  - by apply (Harray {| status_code := 200; json := inr (PList []) |}
                (PList [])).
Defined.

Lemma get_plans_all_or_nothing_witness :
  get_documents "plan" (store (world_of_plans [bare_plan; nameless_plan]))
    = inr [bare_plan; nameless_plan]
  ∧ (∀ outs,
       (get_plans (world_of_plans [bare_plan; nameless_plan])).1 ≠ Ok outs)
  ∧ (get_plans (world_of_plans [bare_plan; nameless_plan])).2
    = world_of_plans [bare_plan; nameless_plan].
Proof.
  assert (get_documents "plan"
            (store (world_of_plans [bare_plan; nameless_plan]))
          = inr [bare_plan; nameless_plan]) as Hdocs by evaluate.
  split; [exact Hdocs|]. split.
  - intros outs Hok.
    apply (get_plans_all_or_nothing _ _ outs Hdocs) in Hok.
    apply Forall2_cons_inv_l in Hok as (p1 & outs1 & _ & Hrest & _).
    apply Forall2_cons_inv_l in Hrest as (p2 & outs2 & Hbad & _).
    revert Hbad. vm_compute. discriminate.
  - apply (get_plans_all_or_nothing _ _ [] Hdocs).
Defined.

Lemma plan_null_field_rejected_witness :
  ("features" ∈ ["price_cents"; "interval"; "features"]
   ∧ plan_null_features !! "features" = Some PNone)
  ∧ plan_out_of_doc plan_null_features
    = Raise (ValidationError ["features"]).
Proof.
  assert ("features" ∈ ["price_cents"; "interval"; "features"]) as Hk.
  { do 2 right. left. }
  assert (plan_null_features !! "features" = Some PNone) as Hnull by evaluate.
  split; [done|].
  destruct (plan_null_field_rejected plan_null_features "features" Hk Hnull)
    as (fields & Hrun & _).
  rewrite Hrun. revert Hrun. vm_compute. congruence.
Defined.

Lemma plan_entry_reflects_document_witness :
  plan_fields_typed bare_plan = true
  ∧ plan_out_of_doc bare_plan
    = Ok {| id := "65f0c0de"; name := "Solo"; description := None;
            price_cents := 900; interval := "year"; features := [] |}.
Proof.
  assert (plan_fields_typed bare_plan = true) as Htyped by evaluate.
  split; [exact Htyped|].
  destruct (plan_entry_reflects_document bare_plan Htyped) as (p & Hrun & _).
  rewrite Hrun. revert Hrun. vm_compute. congruence.
Defined.

Lemma oauth_url_query_is_safe_witness :
  (GOOGLE_CLIENT_ID env_no_secret ≠ ""
   ∧ GOOGLE_REDIRECT_URI env_no_secret ≠ ""
   ∧ utf8_valid (GOOGLE_CLIENT_ID env_no_secret) = true
   ∧ utf8_valid (GOOGLE_REDIRECT_URI env_no_secret) = true)
  ∧ (GOOGLE_CLIENT_ID env_bad_utf8 ≠ ""
     ∧ GOOGLE_REDIRECT_URI env_bad_utf8 ≠ ""
     ∧ utf8_valid (GOOGLE_CLIENT_ID env_bad_utf8) = false)
  ∧ (∃ query,
       (google_oauth_url env_no_secret world_empty).1
         = Ok (PDict
                 {[ "ready" := PBool true;
                    "url" := PStr ("https://accounts.google.com/o/oauth2/v2/auth?"
                                   ++ query)%string ]})
       ∧ count_byte "&" query = 5%nat
       ∧ count_byte " " query = 0%nat)
  ∧ http_status (google_oauth_url env_bad_utf8 world_empty).1 = 500.
Proof.
  assert (GOOGLE_CLIENT_ID env_no_secret ≠ ""
          ∧ GOOGLE_REDIRECT_URI env_no_secret ≠ ""
          ∧ utf8_valid (GOOGLE_CLIENT_ID env_no_secret) = true
          ∧ utf8_valid (GOOGLE_REDIRECT_URI env_no_secret) = true)
    as Hcfg by evaluate.
  assert (GOOGLE_CLIENT_ID env_bad_utf8 ≠ ""
          ∧ GOOGLE_REDIRECT_URI env_bad_utf8 ≠ ""
          ∧ utf8_valid (GOOGLE_CLIENT_ID env_bad_utf8) = false)
    as Hbad by evaluate.
  split; [exact Hcfg|]. split; [exact Hbad|].
  destruct Hcfg as (Hid & Huri & Vid & Vuri).
  destruct Hbad as (Hid' & Huri' & Vid').
  destruct (oauth_url_query_is_safe env_no_secret world_empty Hid Huri)
    as [Hgood _].
  destruct (oauth_url_query_is_safe env_bad_utf8 world_empty Hid' Huri')
    as [_ Hraise].
  destruct (Hgood Vid Vuri) as (query & Hurl & _ & Hamp & _).
  destruct (Hraise (or_introl Vid')) as (e & _ & Hstatus).
  split; [|exact Hstatus].
  exists query. split_and!; [by rewrite Hurl | exact Hamp |].
  revert Hurl. vm_compute. intros [= <-]. reflexivity.
Defined.

Lemma oauth_url_round_trip_witness :
  (GOOGLE_CLIENT_ID env_no_secret ≠ ""
   ∧ GOOGLE_REDIRECT_URI env_no_secret ≠ ""
   ∧ utf8_valid (GOOGLE_CLIENT_ID env_no_secret) = true
   ∧ utf8_valid (GOOGLE_REDIRECT_URI env_no_secret) = true)
  ∧ ∃ query,
      (google_oauth_url env_no_secret world_empty).1
        = Ok (PDict
                {[ "ready" := PBool true;
                   "url" := PStr ("https://accounts.google.com/o/oauth2/v2/auth?"
                                  ++ query)%string ]})
      ∧ (parse_query query).*2 !! 1%nat
        = Some "https://app.example/oauth?next=/a b&x=1".
Proof.
  assert (GOOGLE_CLIENT_ID env_no_secret ≠ ""
          ∧ GOOGLE_REDIRECT_URI env_no_secret ≠ ""
          ∧ utf8_valid (GOOGLE_CLIENT_ID env_no_secret) = true
          ∧ utf8_valid (GOOGLE_REDIRECT_URI env_no_secret) = true)
    as Hcfg by evaluate.
  split; [exact Hcfg|]. destruct Hcfg as (Hid & Huri & Vid & Vuri).
  destruct (oauth_url_round_trip env_no_secret world_empty Hid Huri Vid Vuri)
    as (query & Hurl & Hparse).
  exists query. split; [by rewrite Hurl|].
  rewrite Hparse. reflexivity.
Defined.

Lemma webhook_redelivery_duplicates_witness :
  let request := delivery "customer.subscription.created" in
  let w1 := (stripe_webhook env_configured request world_empty).2 in
  let w2 := (stripe_webhook env_configured request w1).2 in
  ∃ d1 d2 : document,
    get_documents "stripeevent" (store w2) = inr [d1; d2]
    ∧ delete "_id" d1 = delete "_id" d2
    ∧ d1 !! "_id" ≠ d2 !! "_id".
Proof.
  intros request w1 w2.
  edestruct (webhook_redelivery_duplicates env_configured request empty_db []
               sdk_double) as (oid1 & oid2 & Hne & Hdocs);
    [reflexivity | evaluate | evaluate | evaluate | | evaluate | reflexivity |].
  { unfold accepted_event_types. do 1 right. left. }
  eexists _, _. split_and!; [exact Hdocs | |].
  - by rewrite !delete_insert_eq.
  - rewrite !lookup_insert_eq. congruence.
Defined.

Lemma callback_stores_tokens_verbatim_witness :
  let body := {| code := "4/0AbCd" |} in
  let w' := (google_oauth_callback env_configured body world_empty).2 in
  ∃ stored : document,
    get_documents "googleconnection" (store w') = inr [stored]
    ∧ stored !! "access_token" = Some (PStr "ya29.secret-access")
    ∧ stored !! "refresh_token" = Some (PStr "1//secret-refresh").
Proof.
  intros body w'.
  assert (GOOGLE_CLIENT_ID env_configured ≠ ""
          ∧ GOOGLE_CLIENT_SECRET env_configured ≠ ""
          ∧ GOOGLE_REDIRECT_URI env_configured ≠ "") as (Hid & Hsecret & Huri)
    by evaluate.
  destruct (callback_stores_tokens_verbatim env_configured body empty_db []
              {| status_code := 200; json := inr (PDict token_response) |}
              token_response Hid Hsecret Huri eq_refl eq_refl eq_refl eq_refl)
    as (stored & Hdocs & Hsame & _).
  exists stored. split; [exact Hdocs|].
  assert (∀ k, k ≠ "_id" → stored !! k = token_response !! k) as Hk.
  { intros k Hne.
    by rewrite <-(lookup_delete_ne stored "_id" k), Hsame, lookup_delete_ne. }
  split; rewrite Hk by done; reflexivity.
Defined.
